(* ===== verification/_CoqProject ===== *)
-Q . S2P
Prelude.v
Numpy.v
Directory.v
Loader.v
SchoolStats.v
Median.v
GeneralStats.v
Main.v
PromptLoop.v
Pipeline.v
Console.v
Bounds.v
PromptInput.v
