(* ===== verification/Prelude.v ===== *)
(** * A verification development for [src/school_data.py]

    ** The program

    [src/school_data.py] is a console report over the enrollment figures of
    20 Calgary high schools, 3 grades and 10 years.  Its parts, in the order
    in which [main] runs them:

    - the loader (module level, lines 17-42): the ten flat yearly blocks of
      [given_data] are reshaped to 20 x 3 matrices and written into the
      year slices of [enrollment_data], a (20, 3, 10) array created by
      [np.zeros];
    - the school directory and resolver: the parallel lists [school_names]
      and [school_codes] and [get_school], which maps a name ([str]) or a
      code ([int]) to a school index and raises [ValueError] otherwise;
    - the per-school aggregator [calculate_school_stats]: grade means,
      highest and lowest single cell, yearly totals, ten-year total and
      mean, all through numpy's NaN-ignoring reductions and Python's
      [int()];
    - the threshold median [median_enrollment_over_500];
    - the global aggregator [calculate_general_statistics], which mixes a
      plain [mean], a masked mean and the NaN-ignoring reductions;
    - [main]: the prompt loop that reads lines, tries [int()] on each and
      calls [get_school] until one resolves, then the report.

    ** Files of the development

    - [Prelude] (this file): Python exceptions as values ([py_exn]), the
      [result] monad that threads them (stdpp's [MBind]/[MRet], so
      [x ← m; k] and [mapM] are the ones of stdpp), Python list indexing
      [py_getitem] with negative indices and [IndexError], integer sums
      [sumZ], list extrema, the bounds lemmas on [Z.quot] and the hint
      database [school] with the tactic [inv_result].
    - [Numpy]: numpy values and reductions.  A float result is an [fval]
      (a rational [n/d], NaN, or numpy's [masked] constant); [py_int]
      is Python's [int()] (truncation, [ValueError] on NaN, [MaskError] on
      [masked]) and [np_floor] is [np.floor]; [np_nansum], [np_nanmean],
      [np_nanmax], [np_nanmin], [np_mean], [ma_mean] and [np_median]
      reduce lists of cells, a cell being [option Z] with [None] for NaN.
    - [Directory]: the school names, codes, year and grade labels, the
      tagged input [SchoolInput] that stands for Python's dynamic type
      test, and [get_school], generic over any pair of parallel lists
      (Section [Resolver], whose hypotheses are the directory invariant)
      and instantiated at the program's lists.
    - [Loader]: [np_zeros], [reshape], the slice assignment
      [set_year_slice] and the module-level loop [load_enrollment].
    - [SchoolStats]: [calculate_school_stats] and the abstract
      specification it refines.
    - [Median]: [median_enrollment_over_500].
    - [GeneralStats]: [calculate_general_statistics].
    - [Main]: [main]: Python's [int(str)] on a prompt line
      ([py_int_of_str]) and [str(int)] ([py_str_of_Z]), the loop body
      [resolve_line] (lines 199-204), the loop [prompt_loop] (lines
      189-207) and [main] itself, whose result is the list of printed
      error messages and a [Report] record of the printed values.
    - [PromptLoop]: the [while True] loop of [main] as a transition system
      ([LoopState], the step relation [loop_step] and its executable form
      [loop_step_fn]) and the invariant of the states it reaches.
    - [Pipeline]: the script as a whole, [run_program]: the module-level
      load, then [main] on the loaded array.
    - [Console]: what [main] and [median_enrollment_over_500] write to
      standard output, in order, in a writer-and-exception monad [io]:
      [print], the [input()] prompt, f-strings, and the output already
      written when an exception escapes ([console_main]).
    - [Bounds]: bounds of every statistic in terms of a bound [M] on the
      cells.
    - [PromptInput]: the texts [int()] turns into a school code
      ([code_text]: whitespace, [+], leading zeros, an underscore).

    Each file depends only on the files above it: the components call one
    another as the code does ([main] calls [get_school],
    [calculate_school_stats], [median_enrollment_over_500] and
    [calculate_general_statistics]; all of them read the array built by
    the loader).  The resolver is stated against any pair of parallel
    lists satisfying the directory invariant (Section [Resolver] of
    [Directory]); the program's lists discharge it.

    ** Plan of the development (in order of importance)

    1. Loader: shape invariant, round trip (cell (s, g, y) is entry
       [s*3+g] of block [y]) and its error cases (reshape [ValueError],
       [IndexError] for an eleventh block; zero-filled years when fewer
       than ten blocks are given).
    2. Resolver: name and code of one school resolve to the same index,
       soundness of every resolved index, [ValueError] exactly for the
       inputs that are not in the lists, uniqueness of names and codes.
    3. School statistics: refinement of an abstract specification (grade
       mean = truncated quotient of sum by count of valid cells, extrema,
       totals), the cross-check total = sum of yearly totals, the bounds
       lowest <= mean <= highest, the error when a grade has no data.
    4. Threshold median: no value when every cell is at most 500, a value
       above 500 otherwise, independence from the order of the cells.
    5. General statistics: global extrema equal the extrema of the
       per-school extrema, the unmasked 2013 mean fails on a missing cell
       while the masked 2022 mean and total do not.
    6. [main]: whitespace around a code is accepted while a name must
       match exactly, the loop stops
       at the first line that resolves after printing one message per
       rejected line, it ends in [EOFError] when no line resolves, and a
       report of [main] is about the resolved school and meets the
       specification of the school statistics.
    7. The loop as a transition system: the invariant on what it prints,
       by rule induction over its runs.
    8. The whole program and its output: yearly totals read back from the
       input blocks, and the output written before the 2013 NaN error.
    9. Bounds: every statistic is bounded by a multiple of the largest
       cell; the prompt accepts a code in every form [int()] normalises.

    ** What the theorems show

    - Loader: [load_enrollment_roundtrip], [load_enrollment_shape],
      [load_enrollment_Ok_iff], [load_enrollment_Err] and
      [load_enrollment_missing_years_zero].
    - Directory: [get_school_name_code_agree], [get_school_sound] and
      [get_school_Err_iff].
    - SchoolStats: [calculate_school_stats_refines] (the function meets
      the record [school_stats_spec] exactly when it returns it), the
      success condition, the NaN error, total = sum of yearly totals and
      the bounds of the means.
    - Median: no value, a value above 500, and equality with the median of
      the sorted list of values over 500.
    - GeneralStats: the 2013 NaN error, the success case with the masked
      2022 mean and total, and the global extrema.
    - Main: whitespace, the first accepted line, end of input and the
      end-to-end report theorem [main_report].
    - PromptLoop: [loop_printed_invariant].
    - Pipeline: [run_program_yearly], which composes the loader, the
      resolver, the loop and the school statistics.
    - Console: [console_main_partial_output].
    - Bounds: [calculate_school_stats_bounds] and
      [calculate_general_statistics_bounds].
    - PromptInput: [code_text_selects_school].
    Each theorem with hypotheses has a [_witness] lemma that applies it to
    concrete data ([Loader.sample_array] and variants: 20 x 3 x 10 cells
    with value [100 * y + k]).

    ** Bounds and fuel

    No definition needs fuel except [digits_of_pos] (decimal printing),
    whose fuel is the number of binary digits of the integer, at least the
    number of decimal digits ([decimal_fuel]).  The prompt loop recurses on
    the list of lines typed, which is the bound [input()] imposes: the
    loop only terminates when a line resolves or input ends.  Integers are
    unbounded [Z]: Python's ints are, and float64 arithmetic is taken to
    be exact on this data (see below).

    ** Not modelled

    [given_data] (the input tables, outside [src/]: the loader takes the
    blocks as its argument); numpy and the Python builtins beyond the
    calls the program makes (they are libraries the program only calls:
    [Numpy] and [Prelude] give the semantics of those calls on
    integer-valued float64 cells); float64 rounding and infinite values
    (see below); the echo of typed input by the terminal.

    ** Modelling choices

    Cells are integers or NaN ([option Z]).  numpy stores float64; float64
    is not modelled.  The modelling rests on this argument, which is not a
    theorem of the development: the enrollment figures are integers far
    below 2^53 / 600, so every sum of at most 600 of them is an integer
    below 2^53 and is computed exactly, and a quotient [s / c] of such integers with [c <= 600] is never within
    one rounding step of the next integer, so [int()] and [np.floor] of the
    float agree with [Z.quot] and [Z.div] of the exact quotient.  Infinite
    values are not modelled (the data has none).  [enrollment_data.ndim]
    (line 185) is the constant 3 in [main]: the model's array type has
    three axes, as [np.zeros((20, 3, 10))] has.  [input()] is the list
    of lines typed, its end the end of input; standard output is the list
    of strings written.  [given_data] is not part of the sources: its blocks are parameters of
    the loader. *)

From Stdlib Require Export ZArith Lia.
From stdpp Require Export base list strings sorting.

Declare Scope py_scope.
Delimit Scope py_scope with py.

(** ** Python exceptions and the result monad *)

(** The exceptions the program can raise, with their messages. *)
Inductive py_exn : Type :=
| ValueError (msg : string)
| IndexError (msg : string)
| MaskError (msg : string)
| EOFError.

#[export] Instance py_exn_eq_dec : EqDecision py_exn.
Proof. solve_decision. Defined.

(** A Python computation returns a value or raises. *)
Inductive result (A : Type) : Type :=
| Ok (a : A)
| Err (e : py_exn).
Arguments Ok {A} a.
Arguments Err {A} e.

#[export] Instance result_ret : MRet result := @Ok.
#[export] Instance result_bind : MBind result :=
  λ A B (f : A → result B) (m : result A),
    match m with Ok a => f a | Err e => Err e end.
#[export] Instance result_fmap : FMap result :=
  λ A B (f : A → B) (m : result A),
    match m with Ok a => Ok (f a) | Err e => Err e end.

Notation "'raise' e" := (Err e) (at level 10) : py_scope.
Notation "'try' m 'except' h" :=
  (match m with Ok a => Ok a | Err e => h e end)
  (at level 10, m at level 100, h at level 200) : py_scope.

Open Scope py_scope.

(** ** Python indexing *)

(** [l[i]] for a Python list or a numpy axis: negative indices count
    from the end, anything else out of range raises [IndexError]. *)
Definition py_getitem {A} (l : list A) (i : Z) : result A :=
  let n := Z.of_nat (length l) in
  let j := if (i <? 0)%Z then (n + i)%Z else i in
  if ((0 <=? j) && (j <? n))%Z then
    match l !! Z.to_nat j with
    | Some x => Ok x
    | None => Err (IndexError "index out of range")
    end
  else Err (IndexError "index out of range").

(** ** Integer sums and extrema *)

Definition sumZ (l : list Z) : Z := foldr Z.add 0%Z l.

(** The maximum and minimum of a non-empty list given as head and tail. *)
Definition maxZ (x : Z) (l : list Z) : Z := foldr Z.max x l.
Definition minZ (x : Z) (l : list Z) : Z := foldr Z.min x l.

Create HintDb school discriminated.
Create Rewrite HintDb school_rw.

(** ** Lemmas on the result monad *)

Lemma bind_Ok_inv {A B} (m : result A) (f : A → result B) (b : B) :
  (m ≫= f) = Ok b → ∃ a, m = Ok a ∧ f a = Ok b.
Proof. destruct m; simpl; [eauto | discriminate]. Qed.

Lemma bind_Ok {A B} (a : A) (f : A → result B) : (Ok a ≫= f) = f a.
Proof. reflexivity. Qed.

Lemma mapM_cons_result {A B} (f : A → result B) (x : A) (l : list A) :
  mapM f (x :: l) = (y ← f x; k ← mapM f l; mret (y :: k)).
Proof. reflexivity. Qed.

Lemma mapM_result_ext {A B} (f g : A → result B) (l : list A) :
  Forall (λ x, f x = g x) l → mapM f l = mapM g l.
Proof. induction 1 as [|x l Hx _ IH]; [done|]. by rewrite !mapM_cons_result, Hx, IH. Qed.

Lemma bind_Err_inv {A B} (m : result A) (f : A → result B) (e : py_exn) :
  (m ≫= f) = Err e → m = Err e ∨ ∃ a, m = Ok a ∧ f a = Err e.
Proof. destruct m; simpl; intros H; [right; eauto | left; congruence]. Qed.

Lemma mapM_result_Ok {A B} (f : A → result B) (l : list A) (k : list B) :
  mapM f l = Ok k ↔ Forall2 (λ x y, f x = Ok y) l k.
Proof.
  revert k. induction l as [|x l IH]; intros k; simpl.
  - split; [intros [= <-]; constructor | intros H; inversion H; reflexivity].
  - split.
    + intros H. apply bind_Ok_inv in H as (y & Hy & H).
      apply bind_Ok_inv in H as (k' & Hk' & [= <-]).
      constructor; [done | by apply IH].
    + intros H. inversion H as [|? y ? k' Hy Hk']; subst.
      rewrite Hy. simpl. apply IH in Hk'. by rewrite Hk'.
Qed.

(** Split every [bind ... = Ok _] hypothesis into its two steps. *)
Ltac inv_result :=
  repeat match goal with
  | H : (_ ≫= _) = Ok _ |- _ =>
      let a := fresh "a" in let Ha := fresh "Ha" in
      apply bind_Ok_inv in H as (a & Ha & H)
  | H : Ok _ = Ok _ |- _ => injection H as H
  | H : mret _ = Ok _ |- _ => injection H as H
  | H : Err _ = Ok _ |- _ => discriminate H
  | H : Ok _ = Err _ |- _ => discriminate H
  end.

(** ** Lemmas on Python indexing *)

Lemma py_getitem_nat {A} (l : list A) (i : nat) :
  (i < length l)%nat → ∃ x, l !! i = Some x ∧ py_getitem l (Z.of_nat i) = Ok x.
Proof.
  intros Hi. destruct (lookup_lt_is_Some_2 l i Hi) as [x Hx].
  exists x. split; [done|]. unfold py_getitem.
  destruct (Z.ltb_spec (Z.of_nat i) 0); [lia|].
  destruct (Z.leb_spec 0 (Z.of_nat i)); [|lia].
  destruct (Z.ltb_spec (Z.of_nat i) (Z.of_nat (length l))); [|lia].
  simpl. by rewrite Nat2Z.id, Hx.
Qed.

Lemma py_getitem_Ok {A} (l : list A) (i : Z) (x : A) :
  py_getitem l i = Ok x →
  ∃ j : nat, l !! j = Some x ∧
    (Z.of_nat j = if (i <? 0)%Z then Z.of_nat (length l) + i else i)%Z.
Proof.
  unfold py_getitem. set (j := if (i <? 0)%Z then _ else _).
  destruct ((0 <=? j) && (j <? Z.of_nat (length l)))%Z eqn:Hb; [|discriminate].
  apply andb_prop in Hb as [H0 _]. apply Z.leb_le in H0.
  destruct (l !! Z.to_nat j) eqn:Hl; [|discriminate]. intros [= <-].
  exists (Z.to_nat j). split; [done | lia].
Qed.

Lemma py_getitem_out {A} (l : list A) (i : Z) :
  (i < - Z.of_nat (length l) ∨ Z.of_nat (length l) <= i)%Z →
  py_getitem l i = Err (IndexError "index out of range").
Proof.
  intros Hi. unfold py_getitem.
  destruct (Z.ltb_spec i 0).
  - destruct (Z.leb_spec 0 (Z.of_nat (length l) + i)); [lia | reflexivity].
  - destruct (Z.leb_spec 0 i); [|lia].
    destruct (Z.ltb_spec i (Z.of_nat (length l))); [lia | reflexivity].
Qed.

(** A negative index counts from the end of the list. *)
Lemma py_getitem_neg {A} (l : list A) (i : Z) :
  (- Z.of_nat (length l) <= i < 0)%Z →
  py_getitem l i = py_getitem l (i + Z.of_nat (length l)).
Proof.
  intros Hi. unfold py_getitem.
  destruct (Z.ltb_spec i 0); [|lia].
  destruct (Z.ltb_spec (i + Z.of_nat (length l)) 0); [lia|].
  by rewrite Z.add_comm.
Qed.

(** ** Lemmas on lists *)

Lemma elem_of_concat_iff {A} (x : A) (ls : list (list A)) :
  x ∈ concat ls ↔ ∃ l, l ∈ ls ∧ x ∈ l.
Proof.
  rewrite list_elem_of_In, in_concat. setoid_rewrite list_elem_of_In. naive_solver.
Qed.

(** ** Lemmas on sums *)

Lemma sumZ_app l1 l2 : sumZ (l1 ++ l2) = (sumZ l1 + sumZ l2)%Z.
Proof. induction l1 as [|x l1 IH]; simpl; lia. Qed.

Lemma sumZ_cons x l : sumZ (x :: l) = (x + sumZ l)%Z.
Proof. reflexivity. Qed.

Lemma sumZ_concat (ls : list (list Z)) : sumZ (concat ls) = sumZ (map sumZ ls).
Proof.
  induction ls as [|l ls IH]; simpl; [done|]. by rewrite sumZ_app, IH.
Qed.

Lemma sumZ_Permutation l1 l2 : l1 ≡ₚ l2 → sumZ l1 = sumZ l2.
Proof. induction 1; simpl; lia. Qed.

Lemma sumZ_bounds (lo hi : Z) (l : list Z) :
  Forall (λ x, lo <= x <= hi)%Z l →
  (Z.of_nat (length l) * lo <= sumZ l <= Z.of_nat (length l) * hi)%Z.
Proof. induction 1; simpl; lia. Qed.

Lemma sumZ_nonneg (l : list Z) : Forall (λ x, 0 <= x)%Z l → (0 <= sumZ l)%Z.
Proof. induction 1; simpl; lia. Qed.

#[export] Hint Rewrite sumZ_app sumZ_concat : school_rw.

(** ** Lemmas on extrema *)

Lemma maxZ_spec x l :
  (x <= maxZ x l)%Z ∧ Forall (λ y, y <= maxZ x l)%Z l ∧ (maxZ x l = x ∨ maxZ x l ∈ l).
Proof.
  induction l as [|y l (IH1 & IH2 & IH3)]; simpl.
  - split; [lia|]. split; [constructor | by left].
  - split; [lia|]. split.
    + constructor; [lia|]. eapply Forall_impl; [exact IH2|]. simpl; lia.
    + destruct (Z.max_spec y (maxZ x l)) as [[_ ->]|[_ ->]].
      * destruct IH3 as [->|Hin]; [by left | right; by apply list_elem_of_further].
      * right. by apply list_elem_of_here.
Qed.

Lemma minZ_spec x l :
  (minZ x l <= x)%Z ∧ Forall (λ y, minZ x l <= y)%Z l ∧ (minZ x l = x ∨ minZ x l ∈ l).
Proof.
  induction l as [|y l (IH1 & IH2 & IH3)]; simpl.
  - split; [lia|]. split; [constructor | by left].
  - split; [lia|]. split.
    + constructor; [lia|]. eapply Forall_impl; [exact IH2|]. simpl; lia.
    + destruct (Z.min_spec y (minZ x l)) as [[_ ->]|[_ ->]].
      * right. by apply list_elem_of_here.
      * destruct IH3 as [->|Hin]; [by left | right; by apply list_elem_of_further].
Qed.

(** [maxZ] is the greatest element of [x :: l]. *)
Lemma maxZ_greatest x l y : y ∈ x :: l → (y <= maxZ x l)%Z.
Proof.
  destruct (maxZ_spec x l) as (H1 & H2 & _).
  rewrite elem_of_cons. intros [->|Hy]; [done|].
  rewrite Forall_forall in H2. by apply H2.
Qed.

Lemma maxZ_elem x l : maxZ x l ∈ x :: l.
Proof.
  destruct (maxZ_spec x l) as (_ & _ & [->|H]);
    [apply list_elem_of_here | by apply list_elem_of_further].
Qed.

Lemma minZ_least x l y : y ∈ x :: l → (minZ x l <= y)%Z.
Proof.
  destruct (minZ_spec x l) as (H1 & H2 & _).
  rewrite elem_of_cons. intros [->|Hy]; [done|].
  rewrite Forall_forall in H2. by apply H2.
Qed.

Lemma minZ_elem x l : minZ x l ∈ x :: l.
Proof.
  destruct (minZ_spec x l) as (_ & _ & [->|H]);
    [apply list_elem_of_here | by apply list_elem_of_further].
Qed.

#[export] Hint Resolve maxZ_greatest maxZ_elem minZ_least minZ_elem : school.

(** ** Truncating division *)

(** Python's [int()] truncates toward zero: the truncated quotient of a
    mean lies between the extrema whatever their signs. *)
Lemma quot_between (lo hi s n : Z) :
  (0 < n)%Z → (n * lo <= s <= n * hi)%Z → (lo <= Z.quot s n <= hi)%Z.
Proof.
  intros Hn Hs.
  pose proof (Z.quot_rem s n ltac:(lia)) as Hqr.
  pose proof (Z.rem_bound_abs s n ltac:(lia)) as Hr.
  destruct (Z.le_gt_cases 0 s) as [Hs0|Hs0].
  - pose proof (Z.rem_nonneg s n ltac:(lia) Hs0). nia.
  - pose proof (Z.rem_nonpos s n ltac:(lia) ltac:(lia)). nia.
Qed.

(** [lia] does not see through [/]: the floor of the mean of two values
    lies between their bounds. *)
Lemma div2_between (lo hi a b : Z) :
  (lo <= a <= hi)%Z → (lo <= b <= hi)%Z → (lo <= (a + b) / 2 <= hi)%Z.
Proof.
  intros Ha Hb. pose proof (Z.div_mod (a + b) 2 ltac:(lia)).
  pose proof (Z.mod_pos_bound (a + b) 2 ltac:(lia)). lia.
Qed.
