(* ===== verification/Numpy.v ===== *)
(** * numpy values and reductions used by [src/school_data.py]

    A cell of [enrollment_data] is [option Z]: [None] is NaN.  A float
    produced by a reduction is an [fval]: the exact rational [n / d], NaN,
    or numpy's [masked] constant (the mean of a fully masked array).
    [py_int] is Python's [int()] on such a value and [np_floor] is
    [np.floor].  The reductions follow numpy: the [nan*] functions skip
    NaN, [mean] propagates it, [ma.masked_invalid(..).mean()] skips it and
    returns [masked] when nothing is left. *)

From S2P Require Import Prelude.

Local Open Scope Z_scope.

(** ** Values *)

Abbreviation cell := (option Z) (only parsing).

Inductive fval : Type :=
| FNum (n : Z) (d : positive)
| FNaN
| FMasked.

(** [int(x)]: truncation toward zero; NaN and [masked] raise. *)
Definition py_int (x : fval) : result Z :=
  match x with
  | FNum n d => Ok (Z.quot n (Zpos d))
  | FNaN => Err (ValueError "cannot convert float NaN to integer")
  | FMasked => Err (MaskError "Cannot convert masked element to a Python int.")
  end.

(** [np.floor(x)]: NaN and [masked] are returned unchanged. *)
Definition np_floor (x : fval) : fval :=
  match x with
  | FNum n d => FNum (n / Zpos d) 1
  | FNaN => FNaN
  | FMasked => FMasked
  end.

(** ** Reductions over cells *)

(** The non-NaN cells, in order. *)
Fixpoint valid (cs : list cell) : list Z :=
  match cs with
  | [] => []
  | Some x :: cs => x :: valid cs
  | None :: cs => valid cs
  end.

(** Arithmetic mean of numbers; the mean of nothing is NaN ([0/0]). *)
Definition mean_of (ys : list Z) : fval :=
  match ys with
  | [] => FNaN
  | _ :: ys' => FNum (sumZ ys) (Pos.of_succ_nat (length ys'))
  end.

(** [np.nansum]: NaN counts as zero, the empty sum is [0.0]. *)
Definition np_nansum (cs : list cell) : fval := FNum (sumZ (valid cs)) 1.

(** [np.nanmean]: NaN when no cell is valid. *)
Definition np_nanmean (cs : list cell) : fval := mean_of (valid cs).

(** [np.nanmax] and [np.nanmin]: NaN (with a warning) when no cell is valid. *)
Definition np_nanmax (cs : list cell) : fval :=
  match valid cs with
  | [] => FNaN
  | y :: ys => FNum (maxZ y ys) 1
  end.

Definition np_nanmin (cs : list cell) : fval :=
  match valid cs with
  | [] => FNaN
  | y :: ys => FNum (minZ y ys) 1
  end.

(** [ndarray.mean()]: one NaN makes the mean NaN. *)
Definition np_mean (cs : list cell) : fval :=
  match mapM id cs with
  | Some ys => mean_of ys
  | None => FNaN
  end.

(** [np.ma.masked_invalid(a).mean()]: the mean of the valid cells, or
    [masked] when every cell is invalid. *)
Definition ma_mean (cs : list cell) : fval :=
  match valid cs with
  | [] => FMasked
  | ys => mean_of ys
  end.

(** [np.median] of numbers: the middle of the sorted values, or the
    mean of the two middle ones for an even count. *)
Definition np_median (ys : list Z) : fval :=
  let s := merge_sort (≤) ys in
  let n := length s in
  if Nat.even n then
    match s !! (n / 2 - 1)%nat, s !! (n / 2)%nat with
    | Some a, Some b => FNum (a + b) 2
    | _, _ => FNaN
    end
  else
    match s !! (n / 2)%nat with
    | Some m => FNum m 1
    | None => FNaN
    end.

(** ** Lemmas *)

Lemma py_int_whole n : py_int (FNum n 1) = Ok n.
Proof. simpl. by rewrite Z.quot_1_r. Qed.

Lemma py_int_floor n d : py_int (np_floor (FNum n d)) = Ok (n / Zpos d).
Proof. apply py_int_whole. Qed.

Lemma py_int_mean_of y ys :
  py_int (mean_of (y :: ys)) =
  Ok (Z.quot (sumZ (y :: ys)) (Z.of_nat (length (y :: ys)))).
Proof.
  simpl. rewrite Zpos_P_of_succ_nat. do 2 f_equal. lia.
Qed.

Lemma py_int_floor_mean_of y ys :
  py_int (np_floor (mean_of (y :: ys))) =
  Ok (sumZ (y :: ys) / Z.of_nat (length (y :: ys))).
Proof. simpl. rewrite Zpos_P_of_succ_nat, Z.quot_1_r. do 3 f_equal. lia. Qed.

Lemma py_int_nansum cs : py_int (np_nansum cs) = Ok (sumZ (valid cs)).
Proof. apply py_int_whole. Qed.

Lemma valid_app cs1 cs2 : valid (cs1 ++ cs2) = valid cs1 ++ valid cs2.
Proof. induction cs1 as [|[x|] cs1 IH]; simpl; by rewrite ?IH. Qed.

Lemma valid_concat (css : list (list cell)) :
  valid (concat css) = concat (map valid css).
Proof. induction css as [|cs css IH]; simpl; [done|]. by rewrite valid_app, IH. Qed.

Lemma valid_elem x cs : x ∈ valid cs ↔ Some x ∈ cs.
Proof.
  induction cs as [|[y|] cs IH]; simpl.
  - split; intros H; by apply elem_of_nil in H.
  - rewrite !elem_of_cons, IH. naive_solver.
  - rewrite elem_of_cons, IH. naive_solver.
Qed.

Lemma valid_all (ys : list Z) : valid (Some <$> ys) = ys.
Proof. induction ys as [|y ys IH]; [done|]. csimpl. by rewrite IH. Qed.

Lemma mapM_id_valid (cs : list cell) (ys : list Z) :
  mapM id cs = Some ys → valid cs = ys.
Proof.
  revert ys. induction cs as [|[x|] cs IH]; intros ys; simpl.
  - by intros [= <-].
  - destruct (mapM id cs) as [ys'|]; simpl; [|discriminate].
    intros [= <-]. by rewrite (IH ys' eq_refl).
  - discriminate.
Qed.

Lemma mapM_id_None (cs : list cell) : None ∈ cs → mapM id cs = None.
Proof.
  intros H. apply mapM_None. apply Exists_exists. by exists None.
Qed.

Lemma mapM_id_all (cs : list cell) : None ∉ cs → mapM id cs = Some (valid cs).
Proof.
  induction cs as [|[x|] cs IH]; intros Hn; [done| |].
  - rewrite not_elem_of_cons in Hn. simpl. rewrite IH by tauto. reflexivity.
  - destruct Hn. apply list_elem_of_here.
Qed.

Lemma length_valid_all (cs : list cell) : None ∉ cs → length (valid cs) = length cs.
Proof.
  induction cs as [|[x|] cs IH]; intros Hn; [done| |].
  - rewrite not_elem_of_cons in Hn. simpl. rewrite IH by tauto. reflexivity.
  - destruct Hn. apply list_elem_of_here.
Qed.

#[export] Hint Rewrite valid_app valid_concat valid_all : school_rw.

(** [int(np.nanmean(cs))] is the truncated quotient of the sum of the
    valid cells by their number, and raises when there is none. *)
Lemma py_int_nanmean cs :
  py_int (np_nanmean cs) =
  match valid cs with
  | [] => Err (ValueError "cannot convert float NaN to integer")
  | ys => Ok (Z.quot (sumZ ys) (Z.of_nat (length ys)))
  end.
Proof.
  unfold np_nanmean. destruct (valid cs) as [|y ys]; [done|].
  apply py_int_mean_of.
Qed.

Lemma py_int_nanmax cs :
  py_int (np_nanmax cs) =
  match valid cs with
  | [] => Err (ValueError "cannot convert float NaN to integer")
  | y :: ys => Ok (maxZ y ys)
  end.
Proof. unfold np_nanmax. destruct (valid cs); [done|]. apply py_int_whole. Qed.

Lemma py_int_nanmin cs :
  py_int (np_nanmin cs) =
  match valid cs with
  | [] => Err (ValueError "cannot convert float NaN to integer")
  | y :: ys => Ok (minZ y ys)
  end.
Proof. unfold np_nanmin. destruct (valid cs); [done|]. apply py_int_whole. Qed.
