(* ===== verification/Directory.v ===== *)
(** * The school directory and [get_school] ([src/school_data.py], lines 19-35, 45-76)

    The directory is the pair of parallel lists [school_names] and
    [school_codes].  Python's dynamic test [type(school_input) == str] /
    [== int] is the tag of [SchoolInput]; any other type (a float, a bool,
    [None]) is [PyOther].  The membership test [x in l] is [py_in] and
    [l.index(x)], which returns the first position and raises [ValueError]
    when there is none, is [py_index].

    Section [Resolver] states [get_school] over any directory; its
    hypotheses (same lengths, no duplicate name, no duplicate code) are the
    invariant of the directory, and the theorems of the section are proved
    against them.  [get_school] is the section's function at the program's
    lists, which satisfy the invariant ([school_names_NoDup],
    [school_codes_NoDup]). *)

From S2P Require Import Prelude.

(** ** The program's lists *)

Definition school_names : list string :=
  ["Centennial High School"; "Robert Thirsk School"; "Louise Dean School";
   "Queen Elizabeth High School"; "Forest Lawn High School";
   "Crescent Heights High School"; "Western Canada High School";
   "Central Memorial High School"; "James Fowler High School";
   "Ernest Manning High School"; "William Aberhart High School";
   "National Sport School"; "Henry Wise Wood High School";
   "Bowness High School"; "Lord Beaverbrook High School";
   "Jack James High School"; "Sir Winston Churchill High School";
   "Dr. E. P. Scarlett High School"; "John G Diefenbaker High School";
   "Lester B. Pearson High School"].

Definition school_codes : list Z :=
  [1224; 1679; 9626; 9806; 9813; 9815; 9816; 9823; 9825; 9826; 9829; 9830;
   9836; 9847; 9850; 9856; 9857; 9858; 9860; 9865]%Z.

Definition years : list string :=
  ["2013"; "2014"; "2015"; "2016"; "2017"; "2018"; "2019"; "2020"; "2021"; "2022"].

Definition grades : list string := ["Grade 10"; "Grade 11"; "Grade 12"].

Definition num_schools : nat := length school_names.
Definition num_grades : nat := length grades.
Definition num_years : nat := length years.

(** ** Python's [in] and [list.index] *)

Definition py_in `{EqDecision A} (x : A) (l : list A) : bool := bool_decide (x ∈ l).

(** Position of the first occurrence of [x]. *)
Fixpoint first_index `{EqDecision A} (x : A) (l : list A) : option nat :=
  match l with
  | [] => None
  | y :: l => if decide (y = x) then Some 0%nat else S <$> first_index x l
  end.

Definition py_index `{EqDecision A} (l : list A) (x : A) : result Z :=
  match first_index x l with
  | Some i => Ok (Z.of_nat i)
  | None => Err (ValueError "x is not in list")
  end.

(** ** The input of [get_school] *)

Inductive SchoolInput : Type :=
| PyStr (s : string)
| PyInt (z : Z)
| PyOther.

#[export] Instance SchoolInput_eq_dec : EqDecision SchoolInput.
Proof. solve_decision. Defined.

Definition invalid_school_msg : string := "Please enter a valid school name or code.".

(** ** Lemmas on [first_index] *)

Section first_index_lemmas.
Context `{EqDecision A}.

Lemma first_index_Some (x : A) (l : list A) (i : nat) :
  first_index x l = Some i → l !! i = Some x ∧ ∀ j, (j < i)%nat → l !! j ≠ Some x.
Proof.
  revert i. induction l as [|y l IH]; intros i; simpl; [discriminate|].
  case_decide as Hyx.
  - intros [= <-]. subst. split; [done | lia].
  - destruct (first_index x l) as [k|] eqn:Hk; simpl; [|discriminate].
    intros [= <-]. destruct (IH k eq_refl) as [Hl Hmin]. split; [done|].
    intros [|j] Hj; simpl; [congruence|]. apply Hmin. lia.
Qed.

Lemma first_index_None (x : A) (l : list A) : first_index x l = None ↔ x ∉ l.
Proof.
  induction l as [|y l IH]; simpl.
  - split; [intros _; apply not_elem_of_nil | done].
  - rewrite not_elem_of_cons. case_decide as Hyx; [naive_solver|].
    destruct (first_index x l); simpl; naive_solver.
Qed.

(** In a list without duplicates, the first occurrence is the only one. *)
Lemma first_index_NoDup (x : A) (l : list A) (i : nat) :
  NoDup l → l !! i = Some x → first_index x l = Some i.
Proof.
  intros Hnd Hi. destruct (first_index x l) as [k|] eqn:Hk.
  - destruct (first_index_Some x l k Hk) as [Hk' _].
    f_equal. by eapply NoDup_lookup.
  - apply first_index_None in Hk. destruct Hk. by eapply list_elem_of_lookup_2.
Qed.

Lemma py_in_spec (x : A) (l : list A) : py_in x l = true ↔ x ∈ l.
Proof. apply bool_decide_eq_true. Qed.

Lemma py_index_member (x : A) (l : list A) :
  x ∈ l → ∃ i : nat, py_index l x = Ok (Z.of_nat i) ∧ l !! i = Some x.
Proof.
  intros Hx. unfold py_index.
  destruct (first_index x l) as [i|] eqn:Hi.
  - exists i. split; [done|]. apply (first_index_Some x l i Hi).
  - by apply first_index_None in Hi.
Qed.
End first_index_lemmas.

(** ** [get_school] over a directory *)

Section Resolver.
Context (names : list string) (codes : list Z).

(** Lines 45-76. *)
Definition get_school_in (school_input : SchoolInput) : result Z :=
  match school_input with
  | PyStr s =>
      if py_in s names then py_index names s
      else raise (ValueError invalid_school_msg)
  | PyInt z =>
      if py_in z codes then py_index codes z
      else raise (ValueError invalid_school_msg)
  | PyOther => raise (ValueError invalid_school_msg)
  end.

(** What a resolved index points to; no hypothesis is needed. *)
Lemma get_school_in_sound (inp : SchoolInput) (i : Z) :
  get_school_in inp = Ok i →
  ∃ k : nat, i = Z.of_nat k ∧
    match inp with
    | PyStr s => names !! k = Some s
    | PyInt z => codes !! k = Some z
    | PyOther => False
    end.
Proof.
  destruct inp as [s|z|]; simpl; [| |discriminate];
    (case_match; [|discriminate]); unfold py_index;
    case_match eqn:Hf; intros [= <-]; eexists; (split; [reflexivity|]);
    by apply first_index_Some in Hf as [? _].
Qed.

(** The only exception is the [ValueError] of lines 65, 73 and 76. *)
Lemma get_school_in_Err (inp : SchoolInput) (e : py_exn) :
  get_school_in inp = Err e →
  e = ValueError invalid_school_msg ∧
    match inp with
    | PyStr s => s ∉ names
    | PyInt z => z ∉ codes
    | PyOther => True
    end.
Proof.
  destruct inp as [s|z|]; simpl; [| |by intros [= <-]];
    destruct (py_in _ _) eqn:Hin; [| intros [= <-]; split; [done|];
      intros Hm; apply py_in_spec in Hm; congruence | |
      intros [= <-]; split; [done|];
      intros Hm; apply py_in_spec in Hm; congruence];
    apply py_in_spec in Hin; apply py_index_member in Hin as (i & -> & _);
    discriminate.
Qed.

Context (Hlen : length names = length codes).
Context (Hnames : NoDup names) (Hcodes : NoDup codes).

Lemma get_school_in_name (k : nat) (s : string) :
  names !! k = Some s → get_school_in (PyStr s) = Ok (Z.of_nat k).
Proof.
  intros Hk. simpl.
  rewrite (proj2 (py_in_spec s names)) by (by eapply list_elem_of_lookup_2).
  unfold py_index. by rewrite (first_index_NoDup s names k Hnames Hk).
Qed.

Lemma get_school_in_code (k : nat) (z : Z) :
  codes !! k = Some z → get_school_in (PyInt z) = Ok (Z.of_nat k).
Proof.
  intros Hk. simpl.
  rewrite (proj2 (py_in_spec z codes)) by (by eapply list_elem_of_lookup_2).
  unfold py_index. by rewrite (first_index_NoDup z codes k Hcodes Hk).
Qed.

(** The name and the code at one position resolve to that position. *)
Lemma get_school_in_agree (k : nat) :
  (k < length names)%nat →
  ∃ s z, names !! k = Some s ∧ codes !! k = Some z ∧
    get_school_in (PyStr s) = Ok (Z.of_nat k) ∧
    get_school_in (PyInt z) = Ok (Z.of_nat k).
Proof.
  intros Hk.
  destruct (lookup_lt_is_Some_2 names k Hk) as [s Hs].
  destruct (lookup_lt_is_Some_2 codes k ltac:(lia)) as [z Hz].
  exists s, z. split_and!; [done | done | by apply get_school_in_name
                           | by apply get_school_in_code].
Qed.
End Resolver.

(** ** The program's [get_school] *)

Definition get_school : SchoolInput → result Z := get_school_in school_names school_codes.

Lemma school_names_NoDup : NoDup school_names.
Proof. apply (bool_decide_unpack _). vm_compute. reflexivity. Qed.

Lemma school_codes_NoDup : NoDup school_codes.
Proof. apply (bool_decide_unpack _). vm_compute. reflexivity. Qed.

Lemma directory_lengths_codes : length school_names = length school_codes.
Proof. reflexivity. Qed.

Lemma directory_lengths :
  length school_names = length school_codes ∧ num_schools = 20%nat ∧
  num_grades = 3%nat ∧ num_years = 10%nat.
Proof. repeat split. Qed.

#[export] Hint Resolve school_names_NoDup school_codes_NoDup : school.

(** ** Theorems on [get_school] *)

(** C2: for every school of the directory, resolving its name and
    resolving its code both return its index. *)
Theorem get_school_name_code_agree (k : nat) :
  (k < num_schools)%nat →
  ∃ s z, school_names !! k = Some s ∧ school_codes !! k = Some z ∧
    get_school (PyStr s) = Ok (Z.of_nat k) ∧ get_school (PyInt z) = Ok (Z.of_nat k).
Proof.
  apply get_school_in_agree; [reflexivity | apply school_names_NoDup
                             | apply school_codes_NoDup].
Qed.

Lemma get_school_name_code_agree_witness :
  (5 < num_schools)%nat ∧
  ∃ s z, school_names !! 5%nat = Some s ∧ school_codes !! 5%nat = Some z ∧
    get_school (PyStr s) = Ok 5%Z ∧ get_school (PyInt z) = Ok 5%Z.
Proof. split; [vm_compute; lia | apply (get_school_name_code_agree 5); vm_compute; lia]. Defined.

(** C3: [get_school] raises, and raises only the [ValueError] with the
    message "Please enter a valid school name or code.", exactly when the
    input is a string that is not a school name, an integer that is not a
    school code, or a value of any other type. *)
Theorem get_school_Err_iff (inp : SchoolInput) (e : py_exn) :
  get_school inp = Err e ↔
  e = ValueError invalid_school_msg ∧
    match inp with
    | PyStr s => s ∉ school_names
    | PyInt z => z ∉ school_codes
    | PyOther => True
    end.
Proof.
  split; [apply get_school_in_Err|].
  intros [-> Hinp]. unfold get_school, get_school_in.
  destruct inp as [s|z|]; [| |done];
    (destruct (py_in _ _) eqn:Hin; [apply py_in_spec in Hin; contradiction | done]).
Qed.

(** C4: an index returned by [get_school] lies in [0, 20) and designates
    the school whose name or code was given. *)
Theorem get_school_sound (inp : SchoolInput) (i : Z) :
  get_school inp = Ok i →
  (0 <= i < Z.of_nat num_schools)%Z ∧
  ∃ k : nat, i = Z.of_nat k ∧
    match inp with
    | PyStr s => school_names !! k = Some s
    | PyInt z => school_codes !! k = Some z
    | PyOther => False
    end.
Proof.
  intros H. destruct (get_school_in_sound _ _ inp i H) as (k & -> & Hk).
  split; [|by exists k].
  assert (k < num_schools)%nat; [|lia].
  unfold num_schools. rewrite directory_lengths_codes.
  destruct inp as [s|z|]; [| |done]; apply lookup_lt_Some in Hk;
    [by rewrite <- directory_lengths_codes | done].
Qed.

Lemma get_school_sound_witness :
  get_school (PyInt 9830%Z) = Ok 11%Z ∧
  (0 <= 11 < Z.of_nat num_schools)%Z ∧ school_codes !! 11%nat = Some 9830%Z.
Proof.
  assert (H : get_school (PyInt 9830%Z) = Ok 11%Z) by (vm_compute; reflexivity).
  split; [exact H|]. destruct (get_school_sound _ _ H) as [Hb (k & Hk & Hc)].
  split; [exact Hb|]. replace 11%nat with k by lia. exact Hc.
Defined.
