(* ===== verification/Loader.v ===== *)
(** * The loader ([src/school_data.py], lines 17 and 37-42)

    [enrollment_data] starts as [np.zeros((num_schools, num_grades,
    num_years))] ([np_zeros]) and the loop over [enumerate(years_data)]
    ([load_from], [load_enrollment]) assigns to the year slice
    [enrollment_data[:, :, year_index]] ([set_year_slice]) the block
    [year.reshape((num_schools, num_grades))] ([reshape]).  The array is a
    list of schools, each a list of grades, each a list of years.  The
    blocks of [given_data] are not in the sources: they are the parameter
    [years_data] of [load_enrollment].

    [reshape] raises [ValueError] when the block does not have
    [num_schools * num_grades] cells; the assignment raises [IndexError]
    when [year_index] is past the year axis (an eleventh block).  A
    reshaped block always has the shape of the slice, so numpy's
    broadcasting check never fails and is not modelled. *)

From S2P Require Import Prelude Numpy Directory.

(** ** Data *)

Abbreviation array3 := (list (list (list cell))) (only parsing).

(** The cell [(s, g, y)], if it exists. *)
Definition cell_at (arr : array3) (s g y : nat) : option cell :=
  arr !! s ≫= λ m, m !! g ≫= λ r, r !! y.

(** Every school has [G] grades and every grade [Y] years. *)
Definition has_shape (S G Y : nat) (arr : array3) : Prop :=
  length arr = S ∧ Forall (λ m, length m = G ∧ Forall (λ r, length r = Y) m) arr.

(** ** Operations *)

(** [np.zeros((s, g, y))]. *)
Definition np_zeros (s g y : nat) : array3 :=
  replicate s (replicate g (replicate y (Some 0%Z))).

(** The first [r] rows of [c] cells of a flat block, in row-major order. *)
Fixpoint rows_of (r c : nat) (xs : list cell) : list (list cell) :=
  match r with
  | O => []
  | S r' => take c xs :: rows_of r' c (drop c xs)
  end.

(** [block.reshape((r, c))]. *)
Definition reshape (block : list cell) (r c : nat) : result (list (list cell)) :=
  if decide (length block = r * c)%nat then Ok (rows_of r c block)
  else raise (ValueError "cannot reshape array").

(** [arr[:, :, y] = mat]: the year [y] of grade [g] of school [s] becomes
    [mat[s][g]]. *)
Definition set_year_slice (arr : array3) (y : nat) (mat : list (list cell)) : result array3 :=
  if decide (y < num_years)%nat then
    Ok (zip_with (zip_with (λ row v, <[y := v]> row)) arr mat)
  else raise (IndexError "index is out of bounds for axis 2").

(** The loop of lines 41-42, from year index [y] on. *)
Fixpoint load_from (arr : array3) (y : nat) (blocks : list (list cell)) : result array3 :=
  match blocks with
  | [] => Ok arr
  | block :: blocks =>
      mat ← reshape block num_schools num_grades;
      arr' ← set_year_slice arr y mat;
      load_from arr' (S y) blocks
  end.

Definition load_enrollment (years_data : list (list cell)) : result array3 :=
  load_from (np_zeros num_schools num_grades num_years) 0 years_data.

#[export] Instance has_shape_dec S G Y arr : Decision (has_shape S G Y arr).
Proof. unfold has_shape. apply _. Defined.

(** ** Lemmas *)

Lemma np_zeros_shape s g y : has_shape s g y (np_zeros s g y).
Proof.
  unfold np_zeros, has_shape. rewrite length_replicate. split; [done|].
  apply Forall_replicate. rewrite length_replicate. split; [done|].
  apply Forall_replicate. apply length_replicate.
Qed.

Lemma cell_at_np_zeros s g y S G Y :
  (s < S)%nat → (g < G)%nat → (y < Y)%nat →
  cell_at (np_zeros S G Y) s g y = Some (Some 0%Z).
Proof.
  intros. unfold cell_at, np_zeros.
  rewrite lookup_replicate_2 by done. simpl.
  rewrite lookup_replicate_2 by done. simpl. by apply lookup_replicate_2.
Qed.

Lemma length_rows_of r c xs : length (rows_of r c xs) = r.
Proof. revert xs. induction r; intros xs; simpl; auto. Qed.

Lemma rows_of_rows r c xs : Forall (λ row, length row = c) (rows_of r c xs)
  ∨ (length xs < r * c)%nat.
Proof.
  revert xs. induction r as [|r IH]; intros xs; simpl; [left; constructor|].
  destruct (decide (c ≤ length xs)%nat) as [Hc|Hc]; [|right; lia].
  destruct (IH (drop c xs)) as [H|H].
  - left. constructor; [rewrite length_take; lia | done].
  - right. rewrite length_drop in H. lia.
Qed.

(** Row-major reading of a reshaped block. *)
Lemma rows_of_lookup r c xs i j :
  (i < r)%nat → (j < c)%nat →
  rows_of r c xs !! i ≫= (λ row, row !! j) = xs !! (i * c + j)%nat.
Proof.
  revert xs i. induction r as [|r IH]; intros xs i Hi Hj; [lia|].
  destruct i as [|i]; simpl.
  - by rewrite lookup_take_lt by lia.
  - rewrite IH by lia. rewrite lookup_drop. f_equal. lia.
Qed.

Lemma reshape_Ok block r c mat :
  reshape block r c = Ok mat →
  length block = (r * c)%nat ∧ mat = rows_of r c block.
Proof. unfold reshape. case_decide; [by intros [= <-] | discriminate]. Qed.

Lemma reshape_shape block r c mat :
  reshape block r c = Ok mat →
  length mat = r ∧ Forall (λ row, length row = c) mat.
Proof.
  intros [Hl ->]%reshape_Ok. rewrite length_rows_of. split; [done|].
  destruct (rows_of_rows r c block); [done | lia].
Qed.

Lemma has_shape_lookup S G Y arr :
  has_shape S G Y arr ↔ length arr = S ∧
    ∀ s m, arr !! s = Some m → length m = G ∧ ∀ g r, m !! g = Some r → length r = Y.
Proof.
  unfold has_shape. rewrite Forall_lookup. setoid_rewrite Forall_lookup. naive_solver.
Qed.

Lemma set_year_slice_Ok arr y mat arr' :
  set_year_slice arr y mat = Ok arr' →
  (y < num_years)%nat ∧ arr' = zip_with (zip_with (λ row v, <[y := v]> row)) arr mat.
Proof. unfold set_year_slice. case_decide; [by intros [= <-] | discriminate]. Qed.

Section slice.
Context (S G Y : nat) (arr : array3) (y0 : nat) (mat : list (list cell)).
Context (Harr : has_shape S G Y arr).
Context (Hmat_len : length mat = S) (Hmat : Forall (λ row, length row = G) mat).

Lemma zip_set_shape : has_shape S G Y (zip_with (zip_with (λ row v, <[y0 := v]> row)) arr mat).
Proof.
  apply has_shape_lookup in Harr as [Hl Hm]. apply has_shape_lookup. split.
  - rewrite length_zip_with. lia.
  - intros s m' (m & mr & -> & Hs & Hr)%lookup_zip_with_Some.
    destruct (Hm s m Hs) as [Hg Hrow].
    rewrite Forall_lookup in Hmat. specialize (Hmat s mr Hr).
    split; [rewrite length_zip_with; lia|].
    intros g r' (r & v & -> & Hg' & _)%lookup_zip_with_Some.
    rewrite length_insert. eauto.
Qed.

(** After [arr[:, :, y0] = mat], year [y0] holds [mat] and every other
    year is unchanged. *)
Lemma cell_at_zip_set s g y :
  (s < S)%nat → (g < G)%nat → (y0 < Y)%nat →
  cell_at (zip_with (zip_with (λ row v, <[y0 := v]> row)) arr mat) s g y =
    if decide (y = y0) then mat !! s ≫= (λ row, row !! g) else cell_at arr s g y.
Proof.
  intros Hs Hg Hy. apply has_shape_lookup in Harr as [Hl Hm].
  destruct (lookup_lt_is_Some_2 arr s ltac:(lia)) as [m Hms].
  destruct (lookup_lt_is_Some_2 mat s ltac:(lia)) as [mr Hmr].
  destruct (Hm s m Hms) as [HG HY].
  rewrite Forall_lookup in Hmat. specialize (Hmat s mr Hmr).
  destruct (lookup_lt_is_Some_2 m g ltac:(lia)) as [r Hr].
  destruct (lookup_lt_is_Some_2 mr g ltac:(lia)) as [v Hv].
  specialize (HY g r Hr).
  unfold cell_at. rewrite lookup_zip_with, Hms, Hmr. simpl.
  rewrite lookup_zip_with, Hr, Hv. simpl.
  case_decide as Hyy; [subst; apply list_lookup_insert_eq; lia|].
  by apply list_lookup_insert_ne.
Qed.
End slice.

(** The loop invariant: the array keeps its shape, the years already
    visited hold their blocks and the others are untouched. *)
Lemma load_from_spec arr y0 blocks arr' :
  has_shape num_schools num_grades num_years arr → (y0 ≤ num_years)%nat →
  load_from arr y0 blocks = Ok arr' →
  has_shape num_schools num_grades num_years arr' ∧
  (y0 + length blocks ≤ num_years)%nat ∧
  ∀ s g y, (s < num_schools)%nat → (g < num_grades)%nat → (y < num_years)%nat →
    cell_at arr' s g y =
      if decide (y0 ≤ y < y0 + length blocks)%nat
      then blocks !! (y - y0)%nat ≫= (λ b, b !! (s * num_grades + g)%nat)
      else cell_at arr s g y.
Proof.
  revert arr y0. induction blocks as [|b bs IH]; intros arr y0 Hshape Hy0 Hload; simpl in *.
  - injection Hload as <-. split; [done|]. split; [lia|].
    intros. case_decide; [lia | done].
  - inv_result.
    destruct (reshape_shape _ _ _ _ Ha) as [Hml Hmr].
    apply reshape_Ok in Ha as [Hbl ->].
    apply set_year_slice_Ok in Ha0 as [Hy ->].
    destruct (IH _ (S y0) (zip_set_shape _ _ _ _ _ _ Hshape Hml Hmr) ltac:(lia) Hload)
      as (Hsh & Hlen & Hcell).
    split; [done|]. split; [lia|].
    intros s g y Hs Hg Hyy. rewrite Hcell by done.
    rewrite (cell_at_zip_set _ _ _ _ _ _ Hshape Hml Hmr) by done.
    destruct (decide (y = y0)) as [->|Hne].
    + rewrite decide_False by lia. rewrite decide_True by lia.
      rewrite Nat.sub_diag, rows_of_lookup by done. reflexivity.
    + destruct (decide (S y0 ≤ y < S y0 + length bs)%nat);
        [rewrite decide_True by lia | rewrite decide_False by lia]; [|done].
      replace (y - y0)%nat with (S (y - S y0)) by lia. reflexivity.
Qed.

(** Success of the loop, from any start year. *)
Lemma load_from_Ok_iff arr y0 blocks :
  (∃ arr', load_from arr y0 blocks = Ok arr') ↔
  Forall (λ b, length b = (num_schools * num_grades)%nat) blocks ∧
  (blocks = [] ∨ (y0 + length blocks ≤ num_years)%nat).
Proof.
  revert arr y0. induction blocks as [|b bs IH]; intros arr y0; simpl.
  - split; [intros _; split; [constructor | by left] | eauto].
  - rewrite Forall_cons. unfold reshape at 1. case_decide as Hb; simpl.
    + unfold set_year_slice at 1. case_decide as Hy; simpl.
      * rewrite IH. split; [intros [? [? | ?]]; naive_solver lia|].
        intros [[_ ?] [? | ?]]; [discriminate|]. split; [done|].
        destruct bs; [by left | right; simpl in *; lia].
      * split; [by intros [? ?]|]. intros [_ [? | ?]]; [discriminate | lia].
    + split; [by intros [? ?] | naive_solver].
Qed.

Lemma load_from_Err arr y0 blocks e :
  load_from arr y0 blocks = Err e →
  e = ValueError "cannot reshape array" ∨ e = IndexError "index is out of bounds for axis 2".
Proof.
  revert arr y0. induction blocks as [|b bs IH]; intros arr y0; simpl; [discriminate|].
  unfold reshape at 1. case_decide; simpl; [|intros [= <-]; by left].
  unfold set_year_slice at 1. case_decide; simpl; [apply IH | intros [= <-]; by right].
Qed.

Lemma load_from_Err_reshape arr y0 blocks :
  load_from arr y0 blocks = Err (ValueError "cannot reshape array") →
  ¬ Forall (λ b, length b = (num_schools * num_grades)%nat) blocks.
Proof.
  revert arr y0. induction blocks as [|b bs IH]; intros arr y0; simpl; [discriminate|].
  rewrite Forall_cons. unfold reshape at 1. case_decide as Hb; simpl; [|naive_solver].
  unfold set_year_slice at 1. case_decide as Hy; simpl; [|discriminate].
  intros H [_ Hf]. exact (IH _ _ H Hf).
Qed.

Lemma load_from_Err_index arr y0 blocks :
  load_from arr y0 blocks = Err (IndexError "index is out of bounds for axis 2") →
  (num_years < y0 + length blocks)%nat.
Proof.
  revert arr y0. induction blocks as [|b bs IH]; intros arr y0; simpl; [discriminate|].
  unfold reshape at 1. case_decide as Hb; simpl; [|discriminate].
  unfold set_year_slice at 1. case_decide as Hy; simpl; [|lia].
  intros H. specialize (IH _ _ H). lia.
Qed.

(** ** A sample of [given_data] *)

(** Ten blocks of 60 cells; block [y] holds [100 * y + k] at offset [k]. *)
Definition sample_block (y : nat) : list cell :=
  map (λ k, Some (Z.of_nat (100 * y + k))) (seq 0 60).

Definition sample_years : list (list cell) := map sample_block (seq 0 10).

(** The same data where grade 12 of the first school has no figure in any
    year (a grade the school does not offer). *)
Definition sample_years_gap : list (list cell) :=
  map (λ y, <[2%nat := None]> (sample_block y)) (seq 0 10).

Definition array_of (r : result array3) : array3 :=
  match r with Ok a => a | Err _ => [] end.

Definition sample_array : array3 := array_of (load_enrollment sample_years).
Definition sample_array_gap : array3 := array_of (load_enrollment sample_years_gap).

(** Five years of data: the last five years keep their zeros. *)
Definition sample_array_short : array3 := array_of (load_enrollment (take 5 sample_years)).

(** ** Theorems on the loader *)

(** C1: after a successful load, the cell (school s, grade g, year y) is
    the entry at flat offset [s * num_grades + g] of the block of year y
    (row-major reshape). *)
Theorem load_enrollment_roundtrip (years_data : list (list cell)) (arr : array3) :
  load_enrollment years_data = Ok arr →
  ∀ s g y, (s < num_schools)%nat → (g < num_grades)%nat → (y < length years_data)%nat →
    cell_at arr s g y = years_data !! y ≫= (λ b, b !! (s * num_grades + g)%nat).
Proof.
  intros Hload s g y Hs Hg Hy.
  destruct (load_from_spec _ 0 _ _ (np_zeros_shape _ _ _) ltac:(lia) Hload)
    as (_ & Hlen & Hcell).
  rewrite Hcell by lia. rewrite decide_True by lia. by rewrite Nat.sub_0_r.
Qed.

Lemma load_enrollment_roundtrip_witness :
  ∃ arr, load_enrollment sample_years = Ok arr ∧
    cell_at arr 7 2 4 = Some (Some 423%Z).
Proof.
  destruct (load_enrollment sample_years) as [arr|e] eqn:H;
    [|vm_compute in H; discriminate].
  exists arr. split; [reflexivity|].
  rewrite (load_enrollment_roundtrip sample_years arr H 7 2 4);
    [vm_compute; reflexivity | vm_compute; lia ..].
Defined.

(** C5: a successful load yields an array of shape (20, 3, 10) and uses at
    most ten blocks. *)
Theorem load_enrollment_shape (years_data : list (list cell)) (arr : array3) :
  load_enrollment years_data = Ok arr →
  has_shape 20 3 10 arr ∧ (length years_data ≤ 10)%nat.
Proof.
  intros Hload.
  destruct (load_from_spec _ 0 _ _ (np_zeros_shape _ _ _) ltac:(lia) Hload)
    as (Hsh & Hlen & _).
  split; [exact Hsh | exact Hlen].
Qed.

Lemma load_enrollment_shape_witness :
  ∃ arr, load_enrollment sample_years = Ok arr ∧ has_shape 20 3 10 arr.
Proof.
  destruct (load_enrollment sample_years) as [arr|e] eqn:H;
    [|vm_compute in H; discriminate].
  exists arr. split; [reflexivity | exact (proj1 (load_enrollment_shape _ _ H))].
Defined.

(** C6: the load succeeds exactly when every block has 60 cells and there
    are at most ten blocks. *)
Theorem load_enrollment_Ok_iff (years_data : list (list cell)) :
  (∃ arr, load_enrollment years_data = Ok arr) ↔
  Forall (λ b, length b = 60%nat) years_data ∧ (length years_data ≤ 10)%nat.
Proof.
  unfold load_enrollment. rewrite load_from_Ok_iff.
  split; intros [Hf Hl]; split; try exact Hf.
  - destruct Hl as [->|Hl]; [simpl; lia | exact Hl].
  - by right.
Qed.

(** C7: a failed load raises the reshape [ValueError] when some block does
    not have 60 cells, and the [IndexError] of the year axis otherwise,
    which happens only with more than ten blocks. *)
Theorem load_enrollment_Err (years_data : list (list cell)) (e : py_exn) :
  load_enrollment years_data = Err e →
  (e = ValueError "cannot reshape array" ∧ ∃ b, b ∈ years_data ∧ length b ≠ 60%nat) ∨
  (e = IndexError "index is out of bounds for axis 2" ∧ (10 < length years_data)%nat).
Proof.
  intros H. destruct (load_from_Err _ _ _ _ H) as [-> | ->].
  - left. split; [done|]. apply load_from_Err_reshape in H.
    apply not_Forall_Exists in H; [|apply _].
    apply Exists_exists in H as (b & Hb & Hlen). by exists b.
  - right. split; [done|]. apply load_from_Err_index in H. exact H.
Qed.

Lemma load_enrollment_Err_witness :
  load_enrollment (sample_years ++ [sample_block 10]) =
    Err (IndexError "index is out of bounds for axis 2") ∧ (10 < 11)%nat.
Proof.
  assert (H : load_enrollment (sample_years ++ [sample_block 10]) =
                Err (IndexError "index is out of bounds for axis 2")) by (vm_compute; reflexivity).
  split; [exact H|].
  destruct (load_enrollment_Err _ _ H) as [[Hv _]|[_ Hl]]; [discriminate | exact Hl].
Defined.

(** C8: when fewer than ten blocks are given, the remaining years keep
    the [0.0] of [np.zeros]: nothing reports the missing years. *)
Theorem load_enrollment_missing_years_zero (years_data : list (list cell)) (arr : array3) :
  load_enrollment years_data = Ok arr →
  ∀ s g y, (s < num_schools)%nat → (g < num_grades)%nat →
    (length years_data ≤ y < num_years)%nat →
    cell_at arr s g y = Some (Some 0%Z).
Proof.
  intros Hload s g y Hs Hg Hy.
  destruct (load_from_spec _ 0 _ _ (np_zeros_shape _ _ _) ltac:(lia) Hload)
    as (_ & _ & Hcell).
  rewrite Hcell by lia. rewrite decide_False by lia.
  by apply cell_at_np_zeros; lia.
Qed.

Lemma load_enrollment_missing_years_zero_witness :
  ∃ arr, load_enrollment (take 9 sample_years) = Ok arr ∧ cell_at arr 0 0 9 = Some (Some 0%Z).
Proof.
  destruct (load_enrollment (take 9 sample_years)) as [arr|e] eqn:H;
    [|vm_compute in H; discriminate].
  exists arr. split; [reflexivity|].
  apply (load_enrollment_missing_years_zero _ arr H 0 0 9); vm_compute; lia.
Defined.
