(* ===== verification/SchoolStats.v ===== *)
(** * [calculate_school_stats] ([src/school_data.py], lines 109-144)

    The function reads the global [enrollment_data]; here the array is its
    first argument.  [school_enrollment] is the (3, 10) slice of the
    school; row [g] is grade [g] over the years and column [i] is year [i]
    over the grades.  The dictionary it returns is the record
    [SchoolStats]; [yearly_enrollments], a dictionary built in the order of
    [years], is an association list in that order.

    [school_stats_spec] is the abstract specification of the result: each
    grade mean is the truncated quotient of the sum of the grade's valid
    cells by their number, the extrema are the extrema of the valid cells,
    the yearly totals are the column sums, the ten-year total is the sum of
    all valid cells and the mean is that total divided by the ten years.
    [calculate_school_stats_refines] shows that the code implements it. *)

From S2P Require Import Prelude Numpy Directory Loader.

Local Open Scope Z_scope.

(** ** Data *)

Record SchoolStats : Type := mkSchoolStats {
  mean_grade_10 : Z;
  mean_grade_11 : Z;
  mean_grade_12 : Z;
  highest_enrollment : Z;
  lowest_enrollment : Z;
  yearly_enrollments : list (string * Z);
  total_enrollment_10_years : Z;
  mean_total_yearly_enrollment : Z
}.

(** ** numpy slicing of a school's (grades, years) matrix *)

(** [school_enrollment[:, i]]: year [i] of every grade; an index past the
    year axis raises [IndexError]. *)
Definition np_col (m : list (list cell)) (i : Z) : result (list cell) :=
  mapM (λ row, py_getitem row i) m.

(** The cells of year [i], for the specification. *)
Definition column (m : list (list cell)) (i : nat) : list cell :=
  omap (λ row, row !! i) m.

Definition ncols (m : list (list cell)) : nat :=
  match m with [] => O | row :: _ => length row end.

(** [np.nansum(school_enrollment, axis = 0)]: the total of each year. *)
Definition np_nansum_axis0 (m : list (list cell)) : list cell :=
  map (λ i, Some (sumZ (valid (column m i)))) (seq 0 (ncols m)).

(** ** The function *)

(** [int(np.nanmean(school_enrollment[g, :]))], lines 126-130. *)
Definition grade_mean (school_enrollment : list (list cell)) (g : Z) : result Z :=
  row ← py_getitem school_enrollment g;
  py_int (np_nanmean row).

(** One entry [year: int(np.nansum(school_enrollment[:, i]))] of the
    comprehension of line 136. *)
Definition yearly_enrollment (school_enrollment : list (list cell))
    (iy : nat * string) : result (string * Z) :=
  col ← np_col school_enrollment (Z.of_nat iy.1);
  v ← py_int (np_nansum col);
  mret (iy.2, v).

Definition calculate_school_stats (enrollment_data : array3) (school_index : Z)
    : result SchoolStats :=
  school_enrollment ← py_getitem enrollment_data school_index;
  m10 ← grade_mean school_enrollment 0;
  m11 ← grade_mean school_enrollment 1;
  m12 ← grade_mean school_enrollment 2;
  hi ← py_int (np_nanmax (concat school_enrollment));
  lo ← py_int (np_nanmin (concat school_enrollment));
  yearly ← mapM (yearly_enrollment school_enrollment)
                (zip (seq 0 (length years)) years);
  let total_enrollment_per_year := np_nansum_axis0 school_enrollment in
  total ← py_int (np_nansum total_enrollment_per_year);
  mean_total ← py_int (np_nanmean total_enrollment_per_year);
  mret (mkSchoolStats m10 m11 m12 hi lo yearly total mean_total).

(** ** The specification *)

(** [int()] of the mean of integers. *)
Definition trunc_mean (ys : list Z) : Z := Z.quot (sumZ ys) (Z.of_nat (length ys)).

Definition mean_grades (st : SchoolStats) : list Z :=
  [mean_grade_10 st; mean_grade_11 st; mean_grade_12 st].

Definition is_max (ys : list Z) (x : Z) : Prop := x ∈ ys ∧ ∀ y, y ∈ ys → y <= x.
Definition is_min (ys : list Z) (x : Z) : Prop := x ∈ ys ∧ ∀ y, y ∈ ys → x <= y.

Record school_stats_spec (m : list (list cell)) (st : SchoolStats) : Prop := {
  spec_means : Forall2 (λ row v, valid row ≠ [] ∧ v = trunc_mean (valid row)) m (mean_grades st);
  spec_highest : is_max (valid (concat m)) (highest_enrollment st);
  spec_lowest : is_min (valid (concat m)) (lowest_enrollment st);
  spec_yearly : yearly_enrollments st =
    zip years (map (λ i, sumZ (valid (column m i))) (seq 0 num_years));
  spec_total : total_enrollment_10_years st = sumZ (valid (concat m));
  spec_mean_total : mean_total_yearly_enrollment st =
    Z.quot (sumZ (valid (concat m))) (Z.of_nat num_years)
}.

(** ** Lemmas on sums of cells *)

Definition cellZ (c : cell) : Z := match c with Some x => x | None => 0 end.

Lemma sumZ_valid cs : sumZ (valid cs) = sumZ (map cellZ cs).
Proof. induction cs as [|[x|] cs IH]; simpl; lia. Qed.

Lemma sumZ_map_add {A} (f g : A → Z) (l : list A) :
  sumZ (map (λ x, f x + g x) l) = sumZ (map f l) + sumZ (map g l).
Proof. induction l; simpl; lia. Qed.

(** Exchange of two finite sums. *)
Lemma sumZ_exchange {A B} (h : A → B → Z) (la : list A) (lb : list B) :
  sumZ (map (λ b, sumZ (map (λ a, h a b) la)) lb) =
  sumZ (map (λ a, sumZ (map (λ b, h a b) lb)) la).
Proof.
  induction la as [|a la IH]; simpl.
  - induction lb; simpl; lia.
  - by rewrite sumZ_map_add, IH.
Qed.

Lemma sumZ_column m i :
  sumZ (valid (column m i)) = sumZ (map (λ row, from_option cellZ 0 (row !! i)) m).
Proof.
  rewrite sumZ_valid. induction m as [|row m IH]; simpl; [done|].
  destruct (row !! i); simpl; lia.
Qed.

Lemma sumZ_row_by_index (row : list cell) :
  sumZ (map (λ i, from_option cellZ 0 (row !! i)) (seq 0 (length row))) =
  sumZ (valid row).
Proof.
  rewrite sumZ_valid. induction row as [|c row IH]; [done|].
  simpl. rewrite <- seq_shift, map_map. simpl. f_equal. exact IH.
Qed.

(** The sum of the year totals of a rectangular matrix is the sum of all
    its valid cells. *)
Lemma sumZ_columns (m : list (list cell)) (Y : nat) :
  Forall (λ row, length row = Y) m →
  sumZ (map (λ i, sumZ (valid (column m i))) (seq 0 Y)) = sumZ (valid (concat m)).
Proof.
  intros Hm. setoid_rewrite sumZ_column. rewrite sumZ_exchange.
  rewrite valid_concat, sumZ_concat, map_map.
  f_equal. apply map_ext_in. intros row Hrow.
  rewrite Forall_forall in Hm. rewrite <- (Hm row) by (by apply list_elem_of_In).
  apply sumZ_row_by_index.
Qed.

(** ** Lemmas on the steps of [calculate_school_stats] *)

Lemma np_col_Ok m Y i :
  Forall (λ row, length row = Y) m → (i < Y)%nat → np_col m (Z.of_nat i) = Ok (column m i).
Proof.
  intros Hm Hi. induction Hm as [|row m Hrow Hm IH]; [done|].
  unfold np_col in *. rewrite mapM_cons_result.
  destruct (py_getitem_nat row i ltac:(lia)) as (c & Hc & ->).
  rewrite bind_Ok, IH, bind_Ok. unfold column. simpl. by rewrite Hc.
Qed.

Lemma yearly_enrollment_Ok m Y k year :
  Forall (λ row, length row = Y) m → (k < Y)%nat →
  yearly_enrollment m (k, year) = Ok (year, sumZ (valid (column m k))).
Proof.
  intros Hm Hk. unfold yearly_enrollment. simpl fst. simpl snd.
  by rewrite (np_col_Ok m Y k Hm Hk), bind_Ok, py_int_nansum, bind_Ok.
Qed.

Lemma mapM_yearly m Y (l : list string) k :
  Forall (λ row, length row = Y) m → (k + length l ≤ Y)%nat →
  mapM (yearly_enrollment m) (zip (seq k (length l)) l) =
  Ok (zip l (map (λ i, sumZ (valid (column m i))) (seq k (length l)))).
Proof.
  intros Hm. revert k. induction l as [|y l IH]; intros k Hk; [done|].
  simpl length. simpl seq. simpl zip. simpl map. rewrite mapM_cons_result.
  rewrite (yearly_enrollment_Ok m Y k y Hm) by (simpl in Hk; lia).
  rewrite bind_Ok, IH by (simpl in Hk; lia). reflexivity.
Qed.

Lemma grade_mean_Ok m (g : nat) row :
  m !! g = Some row → valid row ≠ [] →
  grade_mean m (Z.of_nat g) = Ok (trunc_mean (valid row)).
Proof.
  intros Hg Hne. unfold grade_mean.
  destruct (py_getitem_nat m g) as (row' & Hrow' & ->); [by eapply lookup_lt_Some|].
  rewrite Hg in Hrow'. injection Hrow' as <-.
  rewrite bind_Ok, py_int_nanmean. by destruct (valid row).
Qed.

Lemma grade_mean_Err m (g : nat) row :
  m !! g = Some row → valid row = [] →
  grade_mean m (Z.of_nat g) = Err (ValueError "cannot convert float NaN to integer").
Proof.
  intros Hg Hnil. unfold grade_mean.
  destruct (py_getitem_nat m g) as (row' & Hrow' & ->); [by eapply lookup_lt_Some|].
  rewrite Hg in Hrow'. injection Hrow' as <-.
  rewrite bind_Ok, py_int_nanmean, Hnil. reflexivity.
Qed.

Lemma ncols_rect m Y : Forall (λ row, length row = Y) m → m ≠ [] → ncols m = Y.
Proof. intros Hm Hne. destruct m as [|row m]; [done|]. by inversion Hm. Qed.

Lemma valid_nansum_axis0 m :
  valid (np_nansum_axis0 m) = map (λ i, sumZ (valid (column m i))) (seq 0 (ncols m)).
Proof.
  unfold np_nansum_axis0. generalize (seq 0 (ncols m)).
  induction l as [|i l IH]; simpl; by rewrite ?IH.
Qed.

(** A school slice of a well-shaped array is a (3, 10) matrix. *)
Lemma school_slice arr k m :
  has_shape num_schools num_grades num_years arr → arr !! k = Some m →
  length m = num_grades ∧ Forall (λ row, length row = num_years) m.
Proof.
  intros [_ Hall] Hk. rewrite Forall_lookup in Hall. exact (Hall k m Hk).
Qed.

Lemma py_int_nansum_axis0 m Y :
  Forall (λ row, length row = Y) m → m ≠ [] →
  py_int (np_nansum (np_nansum_axis0 m)) = Ok (sumZ (valid (concat m))).
Proof.
  intros Hm Hne. rewrite py_int_nansum, valid_nansum_axis0, (ncols_rect m Y Hm Hne).
  by rewrite sumZ_columns.
Qed.

Lemma py_int_nanmean_axis0 m Y :
  Forall (λ row, length row = Y) m → m ≠ [] → (0 < Y)%nat →
  py_int (np_nanmean (np_nansum_axis0 m)) =
    Ok (Z.quot (sumZ (valid (concat m))) (Z.of_nat Y)).
Proof.
  intros Hm Hne HY. rewrite py_int_nanmean, valid_nansum_axis0, (ncols_rect m Y Hm Hne).
  destruct (map (λ i, sumZ (valid (column m i))) (seq 0 Y)) as [|z zs] eqn:Hmap.
  - apply (f_equal length) in Hmap. rewrite length_map, length_seq in Hmap.
    simpl in Hmap. lia.
  - cbv zeta. by rewrite <- Hmap, <- (sumZ_columns m Y Hm), length_map, length_seq.
Qed.

Lemma py_int_extrema (m : list (list cell)) y ys :
  valid (concat m) = y :: ys →
  py_int (np_nanmax (concat m)) = Ok (maxZ y ys) ∧ py_int (np_nanmin (concat m)) = Ok (minZ y ys).
Proof. intros Hv. by rewrite py_int_nanmax, py_int_nanmin, Hv. Qed.

(** Under the shape invariant, when every grade of the school has a valid
    cell, the function returns and its result meets the specification. *)
Lemma calculate_school_stats_Ok arr k m :
  has_shape num_schools num_grades num_years arr → arr !! k = Some m →
  Forall (λ row, valid row ≠ []) m →
  ∃ st, calculate_school_stats arr (Z.of_nat k) = Ok st ∧ school_stats_spec m st.
Proof.
  intros Hsh Hk Hne.
  destruct (school_slice _ _ _ Hsh Hk) as [Hlen Hrows].
  destruct m as [|r0 [|r1 [|r2 [|r3 m]]]]; unfold num_grades in Hlen; simpl in Hlen;
    try discriminate.
  apply Forall_cons in Hne as [H0 Hne]. apply Forall_cons in Hne as [H1 Hne].
  apply Forall_cons in Hne as [H2 _].
  assert (Hv : valid (concat [r0; r1; r2]) ≠ [])
    by (rewrite valid_concat; simpl; by destruct (valid r0)).
  destruct (valid (concat [r0; r1; r2])) as [|y ys] eqn:Hvc; [done|].
  destruct (py_int_extrema _ _ _ Hvc) as [Hhi Hlo].
  unfold calculate_school_stats.
  destruct (py_getitem_nat arr k) as (m' & Hm' & ->); [by eapply lookup_lt_Some|].
  rewrite Hk in Hm'. injection Hm' as <-.
  rewrite bind_Ok.
  rewrite (grade_mean_Ok [r0; r1; r2] 0 r0 eq_refl H0 : grade_mean _ 0 = _), bind_Ok.
  rewrite (grade_mean_Ok [r0; r1; r2] 1 r1 eq_refl H1 : grade_mean _ 1 = _), bind_Ok.
  rewrite (grade_mean_Ok [r0; r1; r2] 2 r2 eq_refl H2 : grade_mean _ 2 = _), bind_Ok.
  rewrite Hhi, bind_Ok, Hlo, bind_Ok.
  rewrite (mapM_yearly _ num_years years 0 Hrows) by reflexivity. rewrite bind_Ok.
  rewrite (py_int_nansum_axis0 _ num_years Hrows) by done. rewrite bind_Ok.
  rewrite (py_int_nanmean_axis0 _ num_years Hrows) by (done || (vm_compute; lia)).
  rewrite bind_Ok. eexists. split; [reflexivity|].
  split; cbn [highest_enrollment lowest_enrollment mean_grades mean_grade_10 mean_grade_11
                mean_grade_12 yearly_enrollments total_enrollment_10_years
                mean_total_yearly_enrollment].
  - repeat constructor; done.
  - rewrite Hvc. split; [apply maxZ_elem | apply maxZ_greatest].
  - rewrite Hvc. split; [apply minZ_elem | apply minZ_least].
  - reflexivity.
  - reflexivity.
  - reflexivity.
Qed.

(** A grade with no valid cell makes [int(np.nanmean(...))] raise. *)
Lemma calculate_school_stats_Err_nan arr k m :
  has_shape num_schools num_grades num_years arr → arr !! k = Some m →
  Exists (λ row, valid row = []) m →
  calculate_school_stats arr (Z.of_nat k) =
    Err (ValueError "cannot convert float NaN to integer").
Proof.
  intros Hsh Hk Hex.
  destruct (school_slice _ _ _ Hsh Hk) as [Hlen _].
  destruct m as [|r0 [|r1 [|r2 [|r3 m]]]]; unfold num_grades in Hlen; simpl in Hlen;
    try discriminate.
  unfold calculate_school_stats.
  destruct (py_getitem_nat arr k) as (m' & Hm' & ->); [by eapply lookup_lt_Some|].
  rewrite Hk in Hm'. injection Hm' as <-. rewrite bind_Ok.
  destruct (decide (valid r0 = [])) as [E0|E0];
    [by rewrite (grade_mean_Err [r0; r1; r2] 0 r0 eq_refl E0 : grade_mean _ 0 = _)|].
  rewrite (grade_mean_Ok [r0; r1; r2] 0 r0 eq_refl E0 : grade_mean _ 0 = _), bind_Ok.
  destruct (decide (valid r1 = [])) as [E1|E1];
    [by rewrite (grade_mean_Err [r0; r1; r2] 1 r1 eq_refl E1 : grade_mean _ 1 = _)|].
  rewrite (grade_mean_Ok [r0; r1; r2] 1 r1 eq_refl E1 : grade_mean _ 1 = _), bind_Ok.
  destruct (decide (valid r2 = [])) as [E2|E2];
    [by rewrite (grade_mean_Err [r0; r1; r2] 2 r2 eq_refl E2 : grade_mean _ 2 = _)|].
  exfalso. repeat (apply Exists_cons in Hex as [Hex|Hex]; [done|]).
  by apply Exists_nil in Hex.
Qed.

Lemma not_Forall_nonempty (m : list (list cell)) :
  ¬ Forall (λ row, valid row ≠ []) m → Exists (λ row, valid row = []) m.
Proof.
  intros Hnot. apply not_Forall_Exists in Hnot; [|apply _].
  eapply Exists_impl; [exact Hnot|]. intros row Hr. simpl in Hr.
  destruct (valid row) eqn:E; [done | exfalso; apply Hr; intros ?; discriminate].
Qed.

(** Bridge from the specification to the yearly totals. *)
Lemma spec_yearly_values m st :
  school_stats_spec m st →
  (yearly_enrollments st).*2 = map (λ i, sumZ (valid (column m i))) (seq 0 num_years).
Proof.
  intros Hspec. rewrite (spec_yearly _ _ Hspec).
  apply snd_zip. rewrite length_map, length_seq. reflexivity.
Qed.

(** Every valid cell of a grade lies between the extrema of the school. *)
Lemma spec_row_between m st row :
  school_stats_spec m st → row ∈ m →
  Forall (λ x, lowest_enrollment st <= x <= highest_enrollment st) (valid row).
Proof.
  intros Hspec Hrow. apply Forall_forall. intros x Hx.
  assert (Hxc : x ∈ valid (concat m)).
  { rewrite valid_concat. apply list_elem_of_In, in_concat. exists (valid row).
    split; [apply in_map, list_elem_of_In, Hrow | by apply list_elem_of_In]. }
  split; [apply (spec_lowest _ _ Hspec) | apply (spec_highest _ _ Hspec)]; exact Hxc.
Qed.

(** The code computes the specification whenever it returns. *)
Lemma calculate_school_stats_sound arr k m st :
  has_shape num_schools num_grades num_years arr → arr !! k = Some m →
  calculate_school_stats arr (Z.of_nat k) = Ok st → school_stats_spec m st.
Proof.
  intros Hsh Hk Hcalc.
  destruct (decide (Forall (λ row, valid row ≠ []) m)) as [Hall|Hnot].
  - destruct (calculate_school_stats_Ok _ _ _ Hsh Hk Hall) as (st' & Hst' & Hspec).
    congruence.
  - apply not_Forall_nonempty in Hnot.
    rewrite (calculate_school_stats_Err_nan _ _ _ Hsh Hk Hnot) in Hcalc. discriminate.
Qed.

Lemma Forall2_graph {A B} (P : A → Prop) (f : A → B) (l : list A) (k : list B) :
  Forall2 (λ x y, P x ∧ y = f x) l k → k = map f l.
Proof. induction 1 as [|x y l k [_ ->] _ IH]; simpl; congruence. Qed.

Lemma Forall2_graph' {A B} (f : A → B) (l : list A) (k : list B) :
  Forall2 (λ x y, y = f x) l k → k = map f l.
Proof. induction 1 as [|x y l k -> _ IH]; simpl; congruence. Qed.

Lemma is_max_unique ys x1 x2 : is_max ys x1 → is_max ys x2 → x1 = x2.
Proof. intros [H1 H1'] [H2 H2']. specialize (H1' x2 H2). specialize (H2' x1 H1). lia. Qed.

Lemma is_min_unique ys x1 x2 : is_min ys x1 → is_min ys x2 → x1 = x2.
Proof. intros [H1 H1'] [H2 H2']. specialize (H1' x2 H2). specialize (H2' x1 H1). lia. Qed.

(** The maximum of a union is the maximum of the maxima of its parts. *)
Lemma is_max_of_parts (parts : list (list Z)) (ms all : list Z) h :
  Forall2 is_max parts ms → (∀ x, x ∈ all ↔ ∃ p, p ∈ parts ∧ x ∈ p) →
  is_max all h → is_max ms h.
Proof.
  intros Hf Hall [Hh Hub]. apply Forall2_same_length_lookup in Hf as [Hlen Hf].
  split.
  - apply Hall in Hh as (p & Hp & Hhp). apply list_elem_of_lookup in Hp as [i Hi].
    destruct (lookup_lt_is_Some_2 ms i) as [mp Hmp]; [rewrite <- Hlen; by eapply lookup_lt_Some|].
    destruct (Hf i p mp Hi Hmp) as [Hmpp Hmpub].
    assert (mp <= h) by (apply Hub, Hall; exists p; split; [by eapply list_elem_of_lookup_2 | done]).
    specialize (Hmpub h Hhp). replace h with mp by lia. by eapply list_elem_of_lookup_2.
  - intros y Hy. apply list_elem_of_lookup in Hy as [i Hi].
    destruct (lookup_lt_is_Some_2 parts i) as [p Hp]; [rewrite Hlen; by eapply lookup_lt_Some|].
    destruct (Hf i p y Hp Hi) as [Hyp _].
    apply Hub, Hall. exists p. split; [by eapply list_elem_of_lookup_2 | done].
Qed.

Lemma is_min_of_parts (parts : list (list Z)) (ms all : list Z) h :
  Forall2 is_min parts ms → (∀ x, x ∈ all ↔ ∃ p, p ∈ parts ∧ x ∈ p) →
  is_min all h → is_min ms h.
Proof.
  intros Hf Hall [Hh Hub]. apply Forall2_same_length_lookup in Hf as [Hlen Hf].
  split.
  - apply Hall in Hh as (p & Hp & Hhp). apply list_elem_of_lookup in Hp as [i Hi].
    destruct (lookup_lt_is_Some_2 ms i) as [mp Hmp]; [rewrite <- Hlen; by eapply lookup_lt_Some|].
    destruct (Hf i p mp Hi Hmp) as [Hmpp Hmpub].
    assert (h <= mp) by (apply Hub, Hall; exists p; split; [by eapply list_elem_of_lookup_2 | done]).
    specialize (Hmpub h Hhp). replace h with mp by lia. by eapply list_elem_of_lookup_2.
  - intros y Hy. apply list_elem_of_lookup in Hy as [i Hi].
    destruct (lookup_lt_is_Some_2 parts i) as [p Hp]; [rewrite Hlen; by eapply lookup_lt_Some|].
    destruct (Hf i p y Hp Hi) as [Hyp _].
    apply Hub, Hall. exists p. split; [by eapply list_elem_of_lookup_2 | done].
Qed.

Lemma py_int_nanmax_is_max cs h : py_int (np_nanmax cs) = Ok h → is_max (valid cs) h.
Proof.
  rewrite py_int_nanmax. destruct (valid cs) as [|y ys]; [discriminate|].
  intros [= <-]. split; [apply maxZ_elem | apply maxZ_greatest].
Qed.

Lemma py_int_nanmin_is_min cs h : py_int (np_nanmin cs) = Ok h → is_min (valid cs) h.
Proof.
  rewrite py_int_nanmin. destruct (valid cs) as [|y ys]; [discriminate|].
  intros [= <-]. split; [apply minZ_elem | apply minZ_least].
Qed.

(** The specification determines the result. *)
Lemma school_stats_spec_functional m st1 st2 :
  school_stats_spec m st1 → school_stats_spec m st2 → st1 = st2.
Proof.
  intros [Hm1 Hx1 Hn1 Hy1 Ht1 Hmt1] [Hm2 Hx2 Hn2 Hy2 Ht2 Hmt2].
  apply Forall2_graph in Hm1, Hm2. rewrite <- Hm2 in Hm1.
  destruct st1, st2; simpl in *. injection Hm1 as -> -> ->.
  rewrite (is_max_unique _ _ _ Hx1 Hx2), (is_min_unique _ _ _ Hn1 Hn2).
  congruence.
Qed.

Lemma spec_rows_nonempty m st :
  school_stats_spec m st → Forall (λ row, valid row ≠ []) m.
Proof.
  intros Hspec. apply Forall_forall. intros row Hrow.
  apply list_elem_of_lookup in Hrow as [i Hi].
  destruct (Forall2_lookup_l _ _ _ _ _ (spec_means _ _ Hspec) Hi) as (v & _ & Hne & _).
  exact Hne.
Qed.

(** ** Theorems on [calculate_school_stats] *)

(** C9: refinement.  On a well-shaped array, [calculate_school_stats] for
    school [k] returns [st] exactly when [st] meets the specification:
    grade means are the truncated means of the grade's valid cells, the
    extrema are those of the school's valid cells, the yearly totals are
    the column sums in year order, the ten-year total is the sum of the
    valid cells and its mean is that total divided by ten, truncated. *)
Theorem calculate_school_stats_refines arr k m st :
  has_shape num_schools num_grades num_years arr → arr !! k = Some m →
  calculate_school_stats arr (Z.of_nat k) = Ok st ↔ school_stats_spec m st.
Proof.
  intros Hsh Hk. split; [by apply calculate_school_stats_sound|].
  intros Hspec.
  destruct (calculate_school_stats_Ok _ _ _ Hsh Hk (spec_rows_nonempty _ _ Hspec))
    as (st' & Hst' & Hspec').
  by rewrite Hst', (school_stats_spec_functional _ _ _ Hspec' Hspec).
Qed.


Lemma calculate_school_stats_refines_witness :
  ∃ m st, sample_array !! 3%nat = Some m ∧
    calculate_school_stats sample_array (Z.of_nat 3) = Ok st ∧ school_stats_spec m st.
Proof.
  destruct (sample_array !! 3%nat) as [m|] eqn:Hm; [|vm_compute in Hm; discriminate].
  destruct (calculate_school_stats sample_array (Z.of_nat 3)) as [st|e] eqn:Hst;
    [|vm_compute in Hst; discriminate].
  exists m, st. split; [reflexivity|]. split; [reflexivity|].
  apply (calculate_school_stats_refines sample_array 3 m st); [|exact Hm|exact Hst].
  apply (bool_decide_unpack _). vm_compute. reflexivity.
Defined.

(** C10: on a well-shaped array, [calculate_school_stats] returns for
    school [k] exactly when every grade of the school has at least one
    valid cell. *)
Theorem calculate_school_stats_Ok_iff arr k m :
  has_shape num_schools num_grades num_years arr → arr !! k = Some m →
  (∃ st, calculate_school_stats arr (Z.of_nat k) = Ok st) ↔ Forall (λ row, valid row ≠ []) m.
Proof.
  intros Hsh Hk. split.
  - intros [st Hst]. exact (spec_rows_nonempty _ _ (calculate_school_stats_sound _ _ _ _ Hsh Hk Hst)).
  - intros Hall. destruct (calculate_school_stats_Ok _ _ _ Hsh Hk Hall) as (st & Hst & _).
    by exists st.
Qed.

Lemma calculate_school_stats_Ok_iff_witness :
  ∃ m, sample_array !! 0%nat = Some m ∧ Forall (λ row, valid row ≠ []) m ∧
    ∃ st, calculate_school_stats sample_array (Z.of_nat 0) = Ok st.
Proof.
  pose (m := default [] (sample_array !! 0%nat)).
  assert (Hm : sample_array !! 0%nat = Some m) by (vm_compute; reflexivity).
  assert (Hall : Forall (λ row, valid row ≠ []) m)
    by (apply (bool_decide_unpack _); vm_compute; reflexivity).
  exists m. split; [reflexivity|]. split; [exact Hall|].
  apply (calculate_school_stats_Ok_iff sample_array 0 m); [|exact Hm|exact Hall].
  apply (bool_decide_unpack _). vm_compute. reflexivity.
Defined.

(** C11: when one grade of the school has no figure in any year (all its
    cells NaN), [int(np.nanmean(...))] raises [ValueError]: the function
    does not return the NaN result the specification documents. *)
Theorem calculate_school_stats_grade_without_data arr k m (g : nat) row :
  has_shape num_schools num_grades num_years arr → arr !! k = Some m →
  m !! g = Some row → valid row = [] →
  calculate_school_stats arr (Z.of_nat k) =
    Err (ValueError "cannot convert float NaN to integer").
Proof.
  intros Hsh Hk Hg Hrow. apply (calculate_school_stats_Err_nan _ _ _ Hsh Hk).
  apply Exists_exists. exists row. split; [by eapply list_elem_of_lookup_2 | exact Hrow].
Qed.

Lemma calculate_school_stats_grade_without_data_witness :
  calculate_school_stats sample_array_gap (Z.of_nat 0) =
    Err (ValueError "cannot convert float NaN to integer").
Proof.
  pose (m := default [] (sample_array_gap !! 0%nat)).
  pose (row := default [] (m !! 2%nat)).
  apply (calculate_school_stats_grade_without_data sample_array_gap 0 m 2 row);
    [apply (bool_decide_unpack _) | ..]; vm_compute; reflexivity.
Defined.

(** C12: the ten-year total equals the sum of the ten yearly totals
    (two aggregation paths of the code agree). *)
Theorem calculate_school_stats_total_yearly arr k m st :
  has_shape num_schools num_grades num_years arr → arr !! k = Some m →
  calculate_school_stats arr (Z.of_nat k) = Ok st →
  total_enrollment_10_years st = sumZ (yearly_enrollments st).*2.
Proof.
  intros Hsh Hk Hst. pose proof (calculate_school_stats_sound _ _ _ _ Hsh Hk Hst) as Hspec.
  rewrite (spec_total _ _ Hspec), (spec_yearly_values _ _ Hspec).
  symmetry. apply sumZ_columns. exact (proj2 (school_slice _ _ _ Hsh Hk)).
Qed.

Lemma calculate_school_stats_total_yearly_witness :
  ∃ st, calculate_school_stats sample_array (Z.of_nat 5) = Ok st ∧
    total_enrollment_10_years st = sumZ (yearly_enrollments st).*2.
Proof.
  destruct (sample_array !! 5%nat) as [m|] eqn:Hm; [|vm_compute in Hm; discriminate].
  destruct (calculate_school_stats sample_array (Z.of_nat 5)) as [st|e] eqn:Hst;
    [|vm_compute in Hst; discriminate].
  exists st. split; [reflexivity|].
  apply (calculate_school_stats_total_yearly sample_array 5 m st); [|exact Hm|exact Hst].
  apply (bool_decide_unpack _). vm_compute. reflexivity.
Defined.

(** C13: each grade mean lies between the lowest and the highest single
    cell of the school, whatever the signs of the figures. *)
Theorem calculate_school_stats_means_between arr k m st :
  has_shape num_schools num_grades num_years arr → arr !! k = Some m →
  calculate_school_stats arr (Z.of_nat k) = Ok st →
  Forall (λ v, lowest_enrollment st <= v <= highest_enrollment st) (mean_grades st).
Proof.
  intros Hsh Hk Hst. pose proof (calculate_school_stats_sound _ _ _ _ Hsh Hk Hst) as Hspec.
  apply Forall_forall. intros v Hv. apply list_elem_of_lookup in Hv as [i Hi].
  destruct (Forall2_lookup_r _ _ _ _ _ (spec_means _ _ Hspec) Hi) as (row & Hrow & Hne & ->).
  pose proof (spec_row_between _ _ _ Hspec (list_elem_of_lookup_2 _ _ _ Hrow)) as Hb.
  apply sumZ_bounds in Hb. unfold trunc_mean. apply quot_between; [|exact Hb].
  destruct (valid row); [done | simpl; lia].
Qed.

Lemma calculate_school_stats_means_between_witness :
  ∃ st, calculate_school_stats sample_array (Z.of_nat 9) = Ok st ∧
    Forall (λ v, lowest_enrollment st <= v <= highest_enrollment st) (mean_grades st).
Proof.
  destruct (sample_array !! 9%nat) as [m|] eqn:Hm; [|vm_compute in Hm; discriminate].
  destruct (calculate_school_stats sample_array (Z.of_nat 9)) as [st|e] eqn:Hst;
    [|vm_compute in Hst; discriminate].
  exists st. split; [reflexivity|].
  apply (calculate_school_stats_means_between sample_array 9 m st); [|exact Hm|exact Hst].
  apply (bool_decide_unpack _). vm_compute. reflexivity.
Defined.
