(* ===== verification/Median.v ===== *)
(** * [median_enrollment_over_500] ([src/school_data.py], lines 78-105)

    The function resolves the school with [get_school], takes its (3, 10)
    slice, keeps the cells strictly above 500 with the boolean mask
    [school_enrollment > 500] (NaN compares false, so NaN cells drop out;
    the kept values come in row-major order) and prints either
    "No enrollments over 500." or the floor of [np.median] of the kept
    values.  The printed line is the value [MedianReport].

    [np_median] (in [Numpy]) sorts with stdpp's [merge_sort];
    [median_of_sorted] is the median read off any sorted list, and
    [median_enrollment_over_500_sorted] shows that the reported value is
    that of every sorted rearrangement of the kept values, so it does not
    depend on the order in which the mask reads the cells. *)

From S2P Require Import Prelude Numpy Directory Loader.

Local Open Scope Z_scope.

(** ** Data *)

Inductive MedianReport : Type :=
| NoEnrollmentsOver500
| MedianOver500 (v : Z).

#[export] Instance MedianReport_eq_dec : EqDecision MedianReport.
Proof. solve_decision. Defined.

(** ** The function *)

(** [school_enrollment[school_enrollment > t]]. *)
Definition over_threshold (t : Z) (school_enrollment : list (list cell)) : list Z :=
  filter (λ x, t < x) (valid (concat school_enrollment)).

Definition median_enrollment_over_500 (school_input : SchoolInput)
    (enrollment_data : array3) : result MedianReport :=
  school_index ← get_school school_input;
  school_enrollment ← py_getitem enrollment_data school_index;
  let enrollments_over_500 := over_threshold 500 school_enrollment in
  if decide (length enrollments_over_500 = 0%nat) then mret NoEnrollmentsOver500
  else
    median_enrollment ← py_int (np_floor (np_median enrollments_over_500));
    mret (MedianOver500 median_enrollment).

(** ** The reference median *)

(** The floor of the median of a sorted list: its middle element, or the
    floor of the mean of its two middle elements. *)
Definition median_of_sorted (s : list Z) : option Z :=
  let n := length s in
  if Nat.even n then
    a ← s !! (n / 2 - 1)%nat; b ← s !! (n / 2)%nat; Some ((a + b) / 2)
  else s !! (n / 2)%nat.

(** ** Lemmas *)

#[export] Instance Z_le_antisymm : AntiSymm (=) Z.le.
Proof. intros x y. lia. Qed.

#[export] Instance Z_le_total : Total Z.le.
Proof. intros x y. lia. Qed.

Lemma merge_sort_sorted_perm (ys s : list Z) :
  Sorted Z.le s → s ≡ₚ ys → merge_sort (≤) ys = s.
Proof.
  intros Hs Hp. apply (Sorted_unique Z.le).
  - apply Sorted_merge_sort; exact Z_le_total.
  - exact Hs.
  - etrans; [apply merge_sort_Permutation | by symmetry].
Qed.

Lemma middle_indices (n : nat) :
  (0 < n)%nat → (n / 2 < n)%nat ∧ (n / 2 - 1 < n)%nat.
Proof. intros Hn. assert (n / 2 < n)%nat by (apply Nat.div_lt; lia). lia. Qed.

(** [int(np.floor(np.median(ys)))] is the reference median of the sorted
    values. *)
Lemma py_int_floor_median (ys : list Z) :
  ys ≠ [] →
  ∃ v, median_of_sorted (merge_sort (≤) ys) = Some v ∧
       py_int (np_floor (np_median ys)) = Ok v.
Proof.
  intros Hne. unfold np_median, median_of_sorted.
  set (s := merge_sort (≤) ys).
  assert (Hlen : length s = length ys) by apply Permutation_length, merge_sort_Permutation.
  assert (Hpos : (0 < length s)%nat) by (destruct ys; [done | rewrite Hlen; simpl; lia]).
  destruct (middle_indices _ Hpos) as [Hi Hj].
  destruct (lookup_lt_is_Some_2 s _ Hi) as [b Hb].
  destruct (Nat.even (length s)).
  - destruct (lookup_lt_is_Some_2 s _ Hj) as [a Ha].
    rewrite Ha, Hb. simpl. eexists. split; [reflexivity | apply py_int_floor].
  - rewrite Hb. eexists. split; [reflexivity|]. rewrite py_int_floor. by rewrite Z.div_1_r.
Qed.

(** The reference median of a sorted list lies between its extrema. *)
Lemma median_of_sorted_between (s : list Z) (lo hi : Z) v :
  Forall (λ x, lo <= x <= hi) s → median_of_sorted s = Some v → lo <= v <= hi.
Proof.
  intros Hs Hv. rewrite Forall_lookup in Hs. unfold median_of_sorted in Hv. cbv zeta in Hv.
  destruct (Nat.even (length s)).
  - destruct (s !! (length s / 2 - 1)%nat) as [a|] eqn:Ha;
      destruct (s !! (length s / 2)%nat) as [b|] eqn:Hb; cbn [mbind option_bind] in Hv;
      try discriminate.
    injection Hv as <-. apply div2_between; [exact (Hs _ _ Ha) | exact (Hs _ _ Hb)].
  - destruct (s !! (length s / 2)%nat) as [b|] eqn:Hb; [|discriminate].
    injection Hv as <-. exact (Hs _ _ Hb).
Qed.

Lemma over_threshold_gt t m : Forall (λ x, t < x) (over_threshold t m).
Proof. apply Forall_forall. intros x Hx. unfold over_threshold in Hx.
  apply list_elem_of_filter in Hx. by destruct Hx.
Qed.

Lemma filter_gt_nil (t : Z) (l : list Z) :
  filter (λ x, t < x) l = [] ↔ Forall (λ x, x <= t) l.
Proof.
  induction l as [|x l IH]; simpl; [split; [constructor | done]|].
  rewrite filter_cons, Forall_cons. case_decide; [split; [done | lia]|].
  rewrite IH. naive_solver lia.
Qed.

Lemma median_enrollment_over_500_unfold inp data (i : Z) m :
  get_school inp = Ok i → py_getitem data i = Ok m →
  median_enrollment_over_500 inp data =
    if decide (length (over_threshold 500 m) = 0%nat) then Ok NoEnrollmentsOver500
    else v ← py_int (np_floor (np_median (over_threshold 500 m))); mret (MedianOver500 v).
Proof. intros Hi Hm. unfold median_enrollment_over_500. by rewrite Hi, bind_Ok, Hm, bind_Ok. Qed.

(** On a non-empty list of kept values the function reports the reference
    median of their sorted arrangement. *)
Lemma median_enrollment_over_500_value inp data (i : Z) m :
  get_school inp = Ok i → py_getitem data i = Ok m → over_threshold 500 m ≠ [] →
  ∃ v, median_of_sorted (merge_sort (≤) (over_threshold 500 m)) = Some v ∧
       median_enrollment_over_500 inp data = Ok (MedianOver500 v).
Proof.
  intros Hi Hm Hne. rewrite (median_enrollment_over_500_unfold _ _ _ _ Hi Hm).
  rewrite decide_False by (by destruct (over_threshold 500 m)).
  destruct (py_int_floor_median _ Hne) as (v & Hv & ->). by exists v.
Qed.

(** ** Theorems on [median_enrollment_over_500] *)

(** C14: for a resolved school, the function prints "No enrollments over
    500." exactly when no valid cell of the school exceeds 500. *)
Theorem median_enrollment_over_500_none inp data (i : Z) m :
  get_school inp = Ok i → py_getitem data i = Ok m →
  median_enrollment_over_500 inp data = Ok NoEnrollmentsOver500 ↔
  Forall (λ x, x <= 500) (valid (concat m)).
Proof.
  intros Hi Hm. rewrite <- filter_gt_nil. fold (over_threshold 500 m).
  destruct (decide (over_threshold 500 m = [])) as [Hnil|Hne].
  - rewrite (median_enrollment_over_500_unfold _ _ _ _ Hi Hm), Hnil. by split.
  - destruct (median_enrollment_over_500_value _ _ _ _ Hi Hm Hne) as (v & _ & ->).
    split; [discriminate | done].
Qed.

Lemma median_enrollment_over_500_none_witness :
  median_enrollment_over_500 (PyStr "Bowness High School") sample_array_short =
    Ok NoEnrollmentsOver500.
Proof.
  assert (Hi : get_school (PyStr "Bowness High School") = Ok 13) by (vm_compute; reflexivity).
  pose (m := default [] (sample_array_short !! 13%nat)).
  assert (Hm : py_getitem sample_array_short 13 = Ok m) by (vm_compute; reflexivity).
  apply (median_enrollment_over_500_none _ _ _ _ Hi Hm).
  apply (bool_decide_unpack _). vm_compute. reflexivity.
Defined.

(** C15: a reported median is above 500 (at least 501, as the spec's
    testable properties require) and at most the largest kept value. *)
Theorem median_enrollment_over_500_above inp data v :
  median_enrollment_over_500 inp data = Ok (MedianOver500 v) →
  ∃ i m, get_school inp = Ok i ∧ py_getitem data i = Ok m ∧
    500 < v ∧ ∃ x, x ∈ over_threshold 500 m ∧ v <= x.
Proof.
  intros H. pose proof H as H'. unfold median_enrollment_over_500 in H'. inv_result.
  exists a, a0. split; [done|]. split; [done|].
  destruct (over_threshold 500 a0) as [|y ys] eqn:Hov.
  { rewrite (median_enrollment_over_500_unfold _ _ _ _ Ha Ha0), Hov in H. discriminate. }
  destruct (median_enrollment_over_500_value _ _ _ _ Ha Ha0) as (w & Hw & Hres);
    [by rewrite Hov|].
  rewrite H in Hres. injection Hres as <-. rewrite Hov in Hw.
  assert (Hb : Forall (λ x, 501 <= x <= maxZ y ys) (merge_sort (≤) (y :: ys))).
  { rewrite merge_sort_Permutation. apply Forall_forall. intros x Hx. split.
    - pose proof (over_threshold_gt 500 a0) as Hgt. rewrite Hov, Forall_forall in Hgt.
      specialize (Hgt x Hx). lia.
    - by apply maxZ_greatest. }
  pose proof (median_of_sorted_between _ _ _ _ Hb Hw). split; [lia|].
  exists (maxZ y ys). split; [apply maxZ_elem | lia].
Qed.

Lemma median_enrollment_over_500_above_witness :
  median_enrollment_over_500 (PyInt 9806) sample_array = Ok (MedianOver500 710) ∧ 500 < 710.
Proof.
  assert (H : median_enrollment_over_500 (PyInt 9806) sample_array = Ok (MedianOver500 710))
    by (vm_compute; reflexivity).
  split; [exact H|].
  destruct (median_enrollment_over_500_above _ _ _ H) as (i & m & _ & _ & Hv & _). exact Hv.
Defined.

(** C16: the reported value is the floor of the median of every sorted
    arrangement of the values above 500, so it does not depend on the
    row-major order in which the mask collects them. *)
Theorem median_enrollment_over_500_sorted inp data (i : Z) m (s : list Z) :
  get_school inp = Ok i → py_getitem data i = Ok m →
  Sorted Z.le s → s ≡ₚ over_threshold 500 m → s ≠ [] →
  ∃ v, median_of_sorted s = Some v ∧ median_enrollment_over_500 inp data = Ok (MedianOver500 v).
Proof.
  intros Hi Hm Hs Hp Hne.
  rewrite <- (merge_sort_sorted_perm _ _ Hs Hp).
  apply (median_enrollment_over_500_value _ _ _ _ Hi Hm).
  intros Hnil. rewrite Hnil in Hp. apply Permutation_nil_r in Hp. done.
Qed.

Lemma median_enrollment_over_500_sorted_witness :
  median_enrollment_over_500 (PyInt 1679) sample_array = Ok (MedianOver500 704).
Proof.
  assert (Hi : get_school (PyInt 1679) = Ok 1) by (vm_compute; reflexivity).
  pose (m := default [] (sample_array !! 1%nat)).
  assert (Hm : py_getitem sample_array 1 = Ok m) by (vm_compute; reflexivity).
  pose (s := [503; 504; 505; 603; 604; 605; 703; 704; 705; 803; 804; 805; 903; 904; 905]).
  assert (Hs : Sorted Z.le s) by (repeat constructor; vm_compute; discriminate).
  assert (Hp : s ≡ₚ over_threshold 500 m)
    by (apply (bool_decide_unpack _); vm_compute; reflexivity).
  destruct (median_enrollment_over_500_sorted _ _ _ _ s Hi Hm Hs Hp ltac:(discriminate))
    as (v & Hv & ->).
  vm_compute in Hv. by injection Hv as <-.
Defined.
