(* ===== verification/GeneralStats.v ===== *)
(** * [calculate_general_statistics] ([src/school_data.py], lines 146-170)

    The function reads the global [enrollment_data]; here it is the
    argument.  [enrollment_data[:, :, y]] is [year_slice]: the cells of
    year [y] of every school and grade, flattened (the means and sums do
    not depend on the order).  The 2013 mean uses the plain [mean()], which
    propagates NaN; the 2022 mean and total go through
    [np.ma.masked_invalid], which skips it; the extrema use [np.nanmax] and
    [np.nanmin] over the whole array.  The result dictionary is the record
    [GeneralStats]. *)

From S2P Require Import Prelude Numpy Directory Loader SchoolStats.

Local Open Scope Z_scope.

(** ** Data *)

Record GeneralStats : Type := mkGeneralStats {
  mean_enrollment_2013 : Z;
  mean_enrollment_2022 : Z;
  total_enrollment_2022 : Z;
  highest_yearly_enrollment : Z;
  lowest_yearly_enrollment : Z
}.

(** ** The function *)

(** [enrollment_data[:, :, y]], flattened. *)
Definition year_slice (arr : array3) (y : Z) : result (list cell) :=
  cols ← mapM (λ m, np_col m y) arr; mret (concat cols).

Definition calculate_general_statistics (enrollment_data : array3) : result GeneralStats :=
  slice_2013 ← year_slice enrollment_data 0;
  m2013 ← py_int (np_floor (np_mean slice_2013));
  masked_enrollment_2022 ← year_slice enrollment_data (-1);
  m2022 ← py_int (np_floor (ma_mean masked_enrollment_2022));
  t2022 ← py_int (np_nansum masked_enrollment_2022);
  hi ← py_int (np_nanmax (concat (concat enrollment_data)));
  lo ← py_int (np_nanmin (concat (concat enrollment_data)));
  mret (mkGeneralStats m2013 m2022 t2022 hi lo).

(** ** The cells of one year *)

Definition year_cells (arr : array3) (y : nat) : list cell :=
  concat (map (λ m, column m y) arr).

Lemma year_slice_Ok S G Y arr (y : nat) :
  has_shape S G Y arr → (y < Y)%nat → year_slice arr (Z.of_nat y) = Ok (year_cells arr y).
Proof.
  intros [_ Hall] Hy. unfold year_slice, year_cells.
  induction Hall as [|m arr [_ Hm] _ IH]; [done|].
  rewrite mapM_cons_result, (np_col_Ok m Y y Hm Hy), bind_Ok.
  destruct (mapM _ arr) as [cols|e]; [|discriminate]. simpl in IH |- *.
  injection IH as IH. by rewrite IH.
Qed.

(** Index [-1] of the year axis is the last year. *)
Lemma year_slice_last S G Y arr :
  has_shape S G Y arr → (0 < Y)%nat →
  year_slice arr (-1) = year_slice arr (Z.of_nat (Y - 1)).
Proof.
  intros [_ Hall] HY. unfold year_slice. f_equal.
  apply mapM_result_ext. eapply Forall_impl; [exact Hall|]. intros m [_ Hm].
  apply mapM_result_ext. eapply Forall_impl; [exact Hm|]. intros row Hrow. simpl in Hrow.
  rewrite py_getitem_neg by lia. f_equal. lia.
Qed.

Lemma elem_of_year_cells arr s g y c :
  cell_at arr s g y = Some c → c ∈ year_cells arr y.
Proof.
  unfold cell_at, year_cells. intros H.
  destruct (arr !! s) as [m|] eqn:Hm; simpl in H; [|discriminate].
  destruct (m !! g) as [r|] eqn:Hr; simpl in H; [|discriminate].
  apply elem_of_concat_iff. exists (column m y). split.
  - apply list_elem_of_In, (in_map (λ m, column m y)), list_elem_of_In.
    by eapply list_elem_of_lookup_2.
  - apply list_elem_of_omap. exists r. split; [by eapply list_elem_of_lookup_2 | done].
Qed.

(** The function on a well-shaped array, with its slices read off. *)
Lemma calculate_general_statistics_unfold arr :
  has_shape num_schools num_grades num_years arr →
  calculate_general_statistics arr =
    (m2013 ← py_int (np_floor (np_mean (year_cells arr 0)));
     m2022 ← py_int (np_floor (ma_mean (year_cells arr 9)));
     t2022 ← py_int (np_nansum (year_cells arr 9));
     hi ← py_int (np_nanmax (concat (concat arr)));
     lo ← py_int (np_nanmin (concat (concat arr)));
     mret (mkGeneralStats m2013 m2022 t2022 hi lo)).
Proof.
  intros Hsh. unfold calculate_general_statistics.
  rewrite (year_slice_Ok _ _ _ arr 0 Hsh ltac:(vm_compute; lia) : year_slice arr 0 = _).
  rewrite bind_Ok.
  destruct (py_int (np_floor (np_mean _))); [rewrite !bind_Ok | done].
  rewrite (year_slice_last _ _ _ arr Hsh) by (vm_compute; lia).
  by rewrite (year_slice_Ok _ _ _ arr (num_years - 1) Hsh) by (vm_compute; lia).
Qed.

Lemma py_int_floor_ma_mean cs :
  py_int (np_floor (ma_mean cs)) =
  match valid cs with
  | [] => Err (MaskError "Cannot convert masked element to a Python int.")
  | ys => Ok (sumZ ys / Z.of_nat (length ys))
  end.
Proof.
  unfold ma_mean. destruct (valid cs) as [|y ys]; [done|].
  simpl. rewrite Zpos_P_of_succ_nat, Z.quot_1_r. do 3 f_equal. lia.
Qed.

(** Every cell of the array is a cell of some school. *)
Lemma valid_all_cells (arr : array3) x :
  x ∈ valid (concat (concat arr)) ↔ ∃ p, p ∈ map (λ m, valid (concat m)) arr ∧ x ∈ p.
Proof.
  rewrite valid_elem, elem_of_concat_iff. split.
  - intros (l & Hl & Hx). apply elem_of_concat_iff in Hl as (m & Hm & Hl).
    exists (valid (concat m)).
    split; [apply list_elem_of_In, (in_map (λ m, valid (concat m))), list_elem_of_In, Hm|].
    apply valid_elem, elem_of_concat_iff. by exists l.
  - intros (p & Hp & Hx). apply list_elem_of_In, in_map_iff in Hp as (m & <- & Hm).
    apply valid_elem, elem_of_concat_iff in Hx as (l & Hl & Hx).
    exists l. split; [|done]. apply elem_of_concat_iff. exists m.
    split; [by apply list_elem_of_In | done].
Qed.

(** ** Theorems on [calculate_general_statistics] *)

(** C17: the 2013 mean uses the unmasked [mean()]: a single missing cell
    in 2013 makes it NaN and [int(np.floor(...))] raises [ValueError],
    although the spec says missing cells are ignored. *)
Theorem calculate_general_statistics_nan_2013 arr s g :
  has_shape num_schools num_grades num_years arr → cell_at arr s g 0 = Some None →
  calculate_general_statistics arr = Err (ValueError "cannot convert float NaN to integer").
Proof.
  intros Hsh Hc. rewrite (calculate_general_statistics_unfold arr Hsh).
  unfold np_mean. by rewrite (mapM_id_None _ (elem_of_year_cells _ _ _ _ _ Hc)).
Qed.

Lemma calculate_general_statistics_nan_2013_witness :
  calculate_general_statistics (array_of (load_enrollment
    (<[0%nat := <[4%nat := None]> (sample_block 0)]> sample_years))) =
  Err (ValueError "cannot convert float NaN to integer").
Proof.
  apply (calculate_general_statistics_nan_2013 _ 1 1);
    [apply (bool_decide_unpack _) |]; vm_compute; reflexivity.
Defined.

Lemma year_cells_in_all arr y x :
  x ∈ valid (year_cells arr y) → x ∈ valid (concat (concat arr)).
Proof.
  rewrite !valid_elem. unfold year_cells. rewrite elem_of_concat_iff.
  intros (col & Hcol & Hx). apply list_elem_of_In, in_map_iff in Hcol as (m & <- & Hm).
  apply list_elem_of_omap in Hx as (row & Hrow & Hr).
  apply elem_of_concat_iff. exists row. split; [|by eapply list_elem_of_lookup_2].
  apply elem_of_concat_iff. exists m. split; [by apply list_elem_of_In | done].
Qed.

(** Every field of a result of [calculate_general_statistics], on a
    well-shaped array. *)
Lemma calculate_general_statistics_Ok_inv arr gs :
  has_shape num_schools num_grades num_years arr →
  calculate_general_statistics arr = Ok gs →
  valid (year_cells arr 0) ≠ [] ∧
  mean_enrollment_2013 gs =
    sumZ (valid (year_cells arr 0)) / Z.of_nat (length (valid (year_cells arr 0))) ∧
  valid (year_cells arr 9) ≠ [] ∧
  mean_enrollment_2022 gs =
    sumZ (valid (year_cells arr 9)) / Z.of_nat (length (valid (year_cells arr 9))) ∧
  total_enrollment_2022 gs = sumZ (valid (year_cells arr 9)) ∧
  highest_yearly_enrollment gs ∈ valid (concat (concat arr)) ∧
  lowest_yearly_enrollment gs ∈ valid (concat (concat arr)).
Proof.
  intros Hsh H. rewrite (calculate_general_statistics_unfold arr Hsh) in H.
  inv_result. subst gs. simpl.
  unfold np_mean in Ha. destruct (mapM id (year_cells arr 0)) as [ys|] eqn:Hm; [|done].
  rewrite (mapM_id_valid _ _ Hm). destruct ys as [|y ys]; [done|].
  rewrite py_int_floor_mean_of in Ha. injection Ha as <-.
  rewrite py_int_floor_ma_mean in Ha0. rewrite py_int_nansum in Ha1. injection Ha1 as <-.
  rewrite py_int_nanmax in Ha2. rewrite py_int_nanmin in Ha3.
  destruct (valid (year_cells arr 9)) as [|z zs]; [done|]. injection Ha0 as <-.
  destruct (valid (concat (concat arr))) as [|w ws]; [done|].
  injection Ha2 as <-. injection Ha3 as <-.
  repeat split; try done; [apply maxZ_elem|apply minZ_elem].
Qed.

Lemma year_cells_nonempty arr y :
  has_shape num_schools num_grades num_years arr → (y < num_years)%nat →
  ∃ c, c ∈ year_cells arr y.
Proof.
  intros Hsh Hy. pose proof Hsh as Hsh'. apply has_shape_lookup in Hsh' as [Hl Hm].
  destruct (lookup_lt_is_Some_2 arr 0) as [m Hm0]; [rewrite Hl; vm_compute; lia|].
  destruct (Hm 0%nat m Hm0) as [Hg Hr].
  destruct (lookup_lt_is_Some_2 m 0) as [r Hr0]; [rewrite Hg; vm_compute; lia|].
  destruct (lookup_lt_is_Some_2 r y) as [c Hc]; [by rewrite (Hr 0%nat r Hr0)|].
  exists c. apply (elem_of_year_cells arr 0 0 y). unfold cell_at. by rewrite Hm0; simpl; rewrite Hr0.
Qed.

(** C18: when no 2013 cell is missing and some 2022 cell is valid, the
    function returns even if other 2022 cells are missing ([masked_invalid]
    at line 160): the 2013 mean is the floor of the mean of the sixty
    2013 cells, the 2022 mean the floor of the mean of the valid 2022
    cells, and the 2022 total their sum. *)
Theorem calculate_general_statistics_Ok arr :
  has_shape num_schools num_grades num_years arr →
  None ∉ year_cells arr 0 → valid (year_cells arr 9) ≠ [] →
  ∃ gs, calculate_general_statistics arr = Ok gs ∧
    mean_enrollment_2013 gs =
      sumZ (valid (year_cells arr 0)) / Z.of_nat (length (year_cells arr 0)) ∧
    mean_enrollment_2022 gs =
      sumZ (valid (year_cells arr 9)) / Z.of_nat (length (valid (year_cells arr 9))) ∧
    total_enrollment_2022 gs = sumZ (valid (year_cells arr 9)).
Proof.
  intros Hsh H2013 H2022. rewrite (calculate_general_statistics_unfold arr Hsh).
  destruct (year_cells_nonempty arr 0 Hsh ltac:(vm_compute; lia)) as [c Hc].
  unfold np_mean. rewrite (mapM_id_all _ H2013).
  rewrite <- (length_valid_all _ H2013).
  destruct (valid (year_cells arr 0)) as [|x xs] eqn:Hv0.
  { destruct c as [x|]; [|done].
    pose proof (proj2 (valid_elem x _) Hc) as Hx. rewrite Hv0 in Hx. by apply elem_of_nil in Hx. }
  rewrite py_int_floor_mean_of, bind_Ok, py_int_floor_ma_mean.
  destruct (valid (year_cells arr 9)) as [|y ys] eqn:Hv9; [done|]. rewrite bind_Ok.
  rewrite py_int_nansum, bind_Ok.
  assert (Hall : y ∈ valid (concat (concat arr)))
    by (apply (year_cells_in_all arr 9); rewrite Hv9; apply list_elem_of_here).
  rewrite py_int_nanmax, py_int_nanmin.
  destruct (valid (concat (concat arr))); [by apply elem_of_nil in Hall|].
  eexists. split; [reflexivity|]. simpl. rewrite Hv9. repeat split; reflexivity.
Qed.

(** The sample data with the 2022 cell of school 1, grade 1 missing. *)
Definition sample_array_gap_2022 : array3 :=
  array_of (load_enrollment (<[9%nat := <[4%nat := None]> (sample_block 9)]> sample_years)).

Lemma calculate_general_statistics_Ok_witness :
  ∃ gs, calculate_general_statistics sample_array_gap_2022 = Ok gs ∧
    mean_enrollment_2013 gs = 29 ∧ mean_enrollment_2022 gs = 929 ∧
    total_enrollment_2022 gs = 54866.
Proof.
  assert (Hsh : has_shape num_schools num_grades num_years sample_array_gap_2022)
    by (apply (bool_decide_unpack _); vm_compute; reflexivity).
  assert (H0 : None ∉ year_cells sample_array_gap_2022 0)
    by (apply (bool_decide_unpack _); vm_compute; reflexivity).
  assert (H9 : valid (year_cells sample_array_gap_2022 9) ≠ [])
    by (apply (bool_decide_unpack _); vm_compute; reflexivity).
  destruct (calculate_general_statistics_Ok sample_array_gap_2022 Hsh H0 H9)
    as (gs & Hgs & H13 & H22 & Ht).
  exists gs. split; [exact Hgs|]. rewrite H13, H22, Ht. vm_compute. auto.
Defined.

(** Every school's extrema are the extrema of its valid cells. *)
Lemma school_extrema_parts arr sts :
  has_shape num_schools num_grades num_years arr →
  mapM (λ k, calculate_school_stats arr (Z.of_nat k)) (seq 0 num_schools) = Ok sts →
  Forall2 is_max (map (λ m, valid (concat m)) arr) (highest_enrollment <$> sts) ∧
  Forall2 is_min (map (λ m, valid (concat m)) arr) (lowest_enrollment <$> sts).
Proof.
  intros Hsh Hsts. apply mapM_result_Ok, Forall2_same_length_lookup in Hsts as [Hlen Hsts].
  rewrite length_seq in Hlen. pose proof Hsh as [Harr _].
  assert (Hspec : ∀ i m st, arr !! i = Some m → sts !! i = Some st → school_stats_spec m st).
  { intros i m st Hm Hst. apply (calculate_school_stats_sound arr i m st Hsh Hm).
    apply (Hsts i i st); [|exact Hst]. apply lookup_seq. split; [lia|].
    rewrite <- Harr. by eapply lookup_lt_Some. }
  split; apply Forall2_same_length_lookup; (split; [rewrite length_map, length_fmap; lia|]);
    intros i p v Hp Hv; apply list_lookup_fmap_Some in Hv as (st & -> & Hst);
    rewrite list_lookup_fmap in Hp; destruct (arr !! i) as [m|] eqn:Hm; try discriminate;
    injection Hp as <-; [apply (spec_highest _ _ (Hspec i m st Hm Hst))
                        |apply (spec_lowest _ _ (Hspec i m st Hm Hst))].
Qed.

(** C19: the global highest and lowest single cells are the highest and
    lowest of the per-school [highest_enrollment] and [lowest_enrollment]
    that [calculate_school_stats] returns for the twenty schools. *)
Theorem calculate_general_statistics_extrema arr gs sts :
  has_shape num_schools num_grades num_years arr →
  calculate_general_statistics arr = Ok gs →
  mapM (λ k, calculate_school_stats arr (Z.of_nat k)) (seq 0 num_schools) = Ok sts →
  is_max (highest_enrollment <$> sts) (highest_yearly_enrollment gs) ∧
  is_min (lowest_enrollment <$> sts) (lowest_yearly_enrollment gs).
Proof.
  intros Hsh Hgs Hsts. destruct (school_extrema_parts _ _ Hsh Hsts) as [Hmax Hmin].
  rewrite (calculate_general_statistics_unfold arr Hsh) in Hgs. inv_result. subst gs.
  split; simpl.
  - eapply is_max_of_parts; [exact Hmax | apply valid_all_cells | by apply py_int_nanmax_is_max].
  - eapply is_min_of_parts; [exact Hmin | apply valid_all_cells | by apply py_int_nanmin_is_min].
Qed.

Lemma calculate_general_statistics_extrema_witness :
  ∃ gs sts, calculate_general_statistics sample_array = Ok gs ∧
    mapM (λ k, calculate_school_stats sample_array (Z.of_nat k)) (seq 0 num_schools) = Ok sts ∧
    is_max (highest_enrollment <$> sts) (highest_yearly_enrollment gs).
Proof.
  destruct (calculate_general_statistics sample_array) as [gs|e] eqn:Hgs;
    [|vm_compute in Hgs; discriminate].
  destruct (mapM (λ k, calculate_school_stats sample_array (Z.of_nat k)) (seq 0 num_schools))
    as [sts|e] eqn:Hsts; [|vm_compute in Hsts; discriminate].
  exists gs, sts. split; [reflexivity|]. split; [reflexivity|].
  apply (calculate_general_statistics_extrema sample_array gs sts); [|exact Hgs | exact Hsts].
  apply (bool_decide_unpack _). vm_compute. reflexivity.
Defined.
