(* ===== verification/Main.v ===== *)
(** * [main] ([src/school_data.py], lines 173-237)

    [main] prints the shape of the array, then loops: it reads a line with
    [input()], tries [int()] on it (lines 192-197), and calls
    [get_school]; a [ValueError] prints its message and the loop goes on,
    anything else leaves the loop (lines 189-207).  Then it prints the
    school's statistics, the threshold median and the general statistics.

    [py_int_of_str] is Python's [int(str)] in base 10 on ASCII text:
    surrounding whitespace is skipped, one sign is allowed, and digits may
    be separated by single underscores.  [py_str_of_Z] is [str(int)], the
    decimal text of an integer.  The lines the user types are the list
    [lines]; its end is the end of input, where [input()] raises
    [EOFError], so the loop is a structural recursion on that list.  The
    printed text is the list of messages of the loop and the record
    [Report] of the printed values; the [input()] prompt text is not
    modelled. *)

From Stdlib Require Import Ascii.
From Stdlib Require String.
From S2P Require Import Prelude Numpy Directory Loader SchoolStats Median GeneralStats.

Local Open Scope Z_scope.

(** ** [int(str)] *)

(** The whitespace [int()] skips, on ASCII: tab, newline, vertical tab,
    form feed, carriage return, the separators 0x1c-0x1f and space. *)
Definition is_py_space (c : ascii) : bool :=
  let n := nat_of_ascii c in ((9 <=? n) && (n <=? 13))%nat || ((28 <=? n) && (n <=? 32))%nat.

Definition digit_val (c : ascii) : option Z :=
  let n := nat_of_ascii c in
  if ((48 <=? n) && (n <=? 57))%nat then Some (Z.of_nat n - 48) else None.

Fixpoint strip_left (s : list ascii) : list ascii :=
  match s with
  | c :: s' => if is_py_space c then strip_left s' else s
  | [] => []
  end.

Definition py_strip (s : list ascii) : list ascii := rev (strip_left (rev (strip_left s))).

(** Digits, with single underscores between two digits; [can_end] says
    the previous character was a digit. *)
Fixpoint parse_digits (acc : Z) (can_end : bool) (s : list ascii) : option Z :=
  match s with
  | [] => if can_end then Some acc else None
  | c :: s' =>
      match digit_val c with
      | Some d => parse_digits (10 * acc + d) true s'
      | None => if can_end && Ascii.eqb c "_" then parse_digits acc false s' else None
      end
  end.

Definition py_int_of_str (s : string) : option Z :=
  match py_strip (String.list_ascii_of_string s) with
  | c :: r =>
      if Ascii.eqb c "-" then Z.opp <$> parse_digits 0 false r
      else if Ascii.eqb c "+" then parse_digits 0 false r
      else parse_digits 0 false (c :: r)
  | [] => None
  end.

(** ** [str(int)] *)

Fixpoint digits_of_pos (fuel : nat) (n : Z) (acc : list ascii) : list ascii :=
  match fuel with
  | O => acc
  | S fuel' =>
      let acc' := ascii_of_nat (Z.to_nat (n mod 10) + 48) :: acc in
      if n <? 10 then acc' else digits_of_pos fuel' (n / 10) acc'
  end.

Definition py_str_of_Z (z : Z) : string :=
  let digits n := digits_of_pos (S (Z.to_nat (Z.log2 (Z.abs n)))) (Z.abs n) [] in
  String.string_of_list_ascii (if z <? 0 then "-"%char :: digits z else digits z).

(** ** The prompt loop *)

(** Lines 192-197: the text of the line, or its integer when [int()]
    accepts it. *)
Definition to_school_input (line : string) : SchoolInput :=
  match py_int_of_str line with
  | Some z => PyInt z
  | None => PyStr line
  end.

(** The body of the [try] of lines 199-204. *)
Definition resolve_line (line : string) : result (Z * SchoolInput * string * Z) :=
  let school_input := to_school_input line in
  school_index ← get_school school_input;
  school_name ← py_getitem school_names school_index;
  school_code ← py_getitem school_codes school_index;
  mret (school_index, school_input, school_name, school_code).

(** Lines 189-207: the printed messages and the outcome. *)
Fixpoint prompt_loop (lines : list string) : list string * result (Z * SchoolInput * string * Z) :=
  match lines with
  | [] => ([], Err EOFError)
  | line :: rest =>
      match resolve_line line with
      | Ok r => ([], Ok r)
      | Err (ValueError msg) => let '(out, res) := prompt_loop rest in (msg :: out, res)
      | Err e => ([], Err e)
      end
  end.

(** ** [main] *)

Record Report : Type := mkReport {
  rep_shape : nat * nat * nat;
  rep_ndim : nat;
  rep_name : string;
  rep_code : Z;
  rep_stats : SchoolStats;
  rep_median : MedianReport;
  rep_general : GeneralStats
}.

Definition np_shape (arr : array3) : nat * nat * nat :=
  match arr with
  | [] => (0%nat, 0%nat, 0%nat)
  | m :: _ => (length arr, length m, match m with [] => 0%nat | r :: _ => length r end)
  end.

(** Lines 181-237: the messages of the prompt loop, then the report or
    the exception that ends the program. *)
Definition main (enrollment_data : array3) (lines : list string) : list string * result Report :=
  let '(out, res) := prompt_loop lines in
  (out,
   '(school_index, school_input, school_name, school_code) ← res;
   school_stats ← calculate_school_stats enrollment_data school_index;
   median ← median_enrollment_over_500 school_input enrollment_data;
   general_stats ← calculate_general_statistics enrollment_data;
   mret (mkReport (np_shape enrollment_data) 3 school_name school_code
                  school_stats median general_stats)).

(** ** Lemmas on [int(str)] and [str(int)] *)

Definition is_digit (c : ascii) : Prop := is_Some (digit_val c).

(** The value of a list of digits read from the left. *)
Definition digits_value (acc : Z) (ds : list ascii) : Z :=
  foldl (λ a c, 10 * a + default 0 (digit_val c)) acc ds.

Lemma digit_char (d : Z) :
  0 <= d < 10 → digit_val (ascii_of_nat (Z.to_nat d + 48)) = Some d.
Proof.
  intros Hd. unfold digit_val. rewrite nat_ascii_embedding by lia.
  destruct (Nat.leb_spec 48 (Z.to_nat d + 48)); [|lia].
  destruct (Nat.leb_spec (Z.to_nat d + 48) 57); [|lia]. simpl. f_equal. lia.
Qed.

Lemma digit_not_space c : is_digit c → is_py_space c = false.
Proof.
  intros [d Hd]. unfold digit_val in Hd. unfold is_py_space.
  destruct (Nat.leb_spec 48 (nat_of_ascii c)), (Nat.leb_spec (nat_of_ascii c) 57);
    simpl in Hd; try discriminate.
  repeat match goal with |- context [Nat.leb ?a ?b] => destruct (Nat.leb_spec a b) end;
    simpl; lia.
Qed.

Lemma digit_not_sign c : is_digit c → Ascii.eqb c "-" = false ∧ Ascii.eqb c "+" = false.
Proof.
  intros [d Hd]. unfold digit_val in Hd.
  split; apply Ascii.eqb_neq; intros ->; vm_compute in Hd; discriminate.
Qed.

Lemma parse_digits_all acc b ds :
  ds ≠ [] → Forall is_digit ds → parse_digits acc b ds = Some (digits_value acc ds).
Proof.
  revert acc b. induction ds as [|c ds IH]; intros acc b Hne Hds; [done|].
  apply Forall_cons in Hds as [[d Hd] Hds]. cbn [parse_digits]. rewrite Hd.
  destruct ds as [|c' ds].
  - unfold digits_value. cbn [foldl]. by rewrite Hd.
  - rewrite IH by done. unfold digits_value. cbn [foldl]. by rewrite Hd.
Qed.

Lemma digits_value_snoc acc ds c :
  digits_value acc (ds ++ [c]) = 10 * digits_value acc ds + default 0 (digit_val c).
Proof. unfold digits_value. by rewrite foldl_app. Qed.

Lemma digits_of_pos_S fuel n acc :
  digits_of_pos (S fuel) n acc =
    let acc' := ascii_of_nat (Z.to_nat (n mod 10) + 48) :: acc in
    if n <? 10 then acc' else digits_of_pos fuel (n / 10) acc'.
Proof. reflexivity. Qed.

(** [digits_of_pos] writes the decimal digits of [n] in front of [acc]. *)
Lemma digits_of_pos_spec fuel n acc :
  0 <= n < 10 ^ Z.of_nat (S fuel) →
  ∃ ds, digits_of_pos (S fuel) n acc = ds ++ acc ∧ ds ≠ [] ∧
        Forall is_digit ds ∧ digits_value 0 ds = n.
Proof.
  revert n acc. induction fuel as [|fuel IH]; intros n acc Hn.
  - simpl in Hn. exists [ascii_of_nat (Z.to_nat (n mod 10) + 48)].
    simpl. rewrite Z.mod_small by lia. destruct (Z.ltb_spec n 10); [|lia].
    split; [done|]. split; [done|]. split.
    + constructor; [|constructor]. eexists. apply digit_char. lia.
    + unfold digits_value. simpl. rewrite digit_char by lia. done.
  - rewrite digits_of_pos_S. cbv zeta. destruct (Z.ltb_spec n 10).
    + exists [ascii_of_nat (Z.to_nat (n mod 10) + 48)]. rewrite Z.mod_small by lia.
      split; [done|]. split; [done|]. split.
      * constructor; [|constructor]. eexists. apply digit_char. lia.
      * unfold digits_value. simpl. rewrite digit_char by lia. done.
    + rewrite Nat2Z.inj_succ, Z.pow_succ_r in Hn by lia.
      destruct (IH (n / 10) (ascii_of_nat (Z.to_nat (n mod 10) + 48) :: acc))
        as (ds & Hds & Hne & Hall & Hval).
      { split; [apply Z.div_pos; lia | apply Z.div_lt_upper_bound; lia]. }
      exists (ds ++ [ascii_of_nat (Z.to_nat (n mod 10) + 48)]).
      rewrite Hds, <- app_assoc. split; [done|]. split; [by destruct ds|]. split.
      * apply Forall_app. split; [done|]. constructor; [|constructor].
        eexists. apply digit_char. pose proof (Z.mod_pos_bound n 10). lia.
      * rewrite digits_value_snoc, Hval, digit_char by (pose proof (Z.mod_pos_bound n 10); lia).
        simpl. pose proof (Z.div_mod n 10). lia.
Qed.

Definition no_space (l : list ascii) : Prop := Forall (λ c, is_py_space c = false) l.
Definition all_space (l : list ascii) : Prop := Forall (λ c, is_py_space c = true) l.

Lemma strip_left_spaces pre l : all_space pre → strip_left (pre ++ l) = strip_left l.
Proof. induction 1 as [|c pre Hc _ IH]; [done|]. simpl. by rewrite Hc. Qed.

Lemma strip_left_head c l : is_py_space c = false → strip_left (c :: l) = c :: l.
Proof. simpl. by intros ->. Qed.

(** Stripping removes exactly the surrounding whitespace. *)
Lemma py_strip_padded pre body post :
  all_space pre → all_space post → body ≠ [] → no_space body →
  py_strip (pre ++ body ++ post) = body.
Proof.
  intros Hpre Hpost Hne Hbody. unfold py_strip.
  rewrite strip_left_spaces by done.
  destruct body as [|c b]; [done|]. inversion Hbody as [|? ? Hc Hb]; subst.
  rewrite <- app_comm_cons, strip_left_head by done.
  rewrite app_comm_cons, rev_app_distr, strip_left_spaces by (by apply Forall_rev).
  assert (Hr : no_space (rev (c :: b))) by (by apply Forall_rev).
  destruct (rev (c :: b)) as [|d r] eqn:Hrev.
  { apply (f_equal length) in Hrev. rewrite length_rev in Hrev. discriminate. }
  inversion Hr; subst. rewrite strip_left_head by done.
  rewrite <- Hrev. apply rev_involutive.
Qed.

Lemma decimal_fuel n : 0 <= n → n < 10 ^ Z.of_nat (S (Z.to_nat (Z.log2 n))).
Proof.
  intros Hn. rewrite Nat2Z.inj_succ, Z2Nat.id by apply Z.log2_nonneg.
  apply (Z.lt_le_trans _ (2 ^ Z.succ (Z.log2 n))).
  - destruct (Z.eq_dec n 0) as [->|Hn0]; [reflexivity|]. apply Z.log2_spec. lia.
  - apply Z.pow_le_mono_l. lia.
Qed.

(** The text of [str(z)]: an optional minus sign and the digits of [|z|]. *)
Lemma py_str_of_Z_digits z :
  ∃ ds, String.list_ascii_of_string (py_str_of_Z z) = (if z <? 0 then "-"%char :: ds else ds) ∧
        ds ≠ [] ∧ Forall is_digit ds ∧ digits_value 0 ds = Z.abs z.
Proof.
  destruct (digits_of_pos_spec (Z.to_nat (Z.log2 (Z.abs z))) (Z.abs z) [])
    as (ds & Hds & Hne & Hall & Hval).
  { split; [lia | apply decimal_fuel; lia]. }
  rewrite app_nil_r in Hds. exists ds. split; [|done].
  unfold py_str_of_Z. rewrite String.list_ascii_of_string_of_list_ascii.
  by destruct (z <? 0); rewrite Hds.
Qed.

Lemma digits_no_space ds : Forall is_digit ds → no_space ds.
Proof. intros H. eapply Forall_impl; [exact H | apply digit_not_space]. Qed.

(** C23 helper: [int()] reads back [str(z)] with any whitespace around it. *)
Lemma py_int_of_str_padded z pre post :
  all_space pre → all_space post →
  py_int_of_str (String.string_of_list_ascii
                   (pre ++ String.list_ascii_of_string (py_str_of_Z z) ++ post)) = Some z.
Proof.
  intros Hpre Hpost. destruct (py_str_of_Z_digits z) as (ds & -> & Hne & Hall & Hval).
  unfold py_int_of_str. rewrite String.list_ascii_of_string_of_list_ascii.
  destruct (Z.ltb_spec z 0).
  - rewrite py_strip_padded; [| done | done | done |].
    + rewrite Ascii.eqb_refl, parse_digits_all, Hval by done. simpl. f_equal. lia.
    + constructor; [reflexivity | by apply digits_no_space].
  - rewrite py_strip_padded by (try done; by apply digits_no_space).
    destruct ds as [|c ds]; [done|].
    destruct (digit_not_sign c) as [-> ->]; [by inversion Hall|].
    rewrite parse_digits_all, Hval by done. f_equal. lia.
Qed.

(** ** Lemmas on the prompt loop *)

Lemma resolve_line_Ok line (i : Z) :
  get_school (to_school_input line) = Ok i →
  ∃ k name code, i = Z.of_nat k ∧ school_names !! k = Some name ∧
    school_codes !! k = Some code ∧
    resolve_line line = Ok (i, to_school_input line, name, code).
Proof.
  intros Hi. destruct (get_school_in_sound _ _ _ _ Hi) as (k & -> & Hk).
  assert (Hlt : (k < length school_names)%nat).
  { destruct (to_school_input line); [by eapply lookup_lt_Some | |done].
    rewrite directory_lengths_codes. by eapply lookup_lt_Some. }
  destruct (py_getitem_nat school_names k Hlt) as (name & Hn & Hgn).
  destruct (py_getitem_nat school_codes k) as (code & Hc & Hgc);
    [by rewrite <- directory_lengths_codes|].
  exists k, name, code. split; [done|]. split; [done|]. split; [done|].
  unfold resolve_line. by rewrite Hi, bind_Ok, Hgn, bind_Ok, Hgc, bind_Ok.
Qed.

Lemma resolve_line_Err line :
  (∀ i, get_school (to_school_input line) ≠ Ok i) →
  resolve_line line = Err (ValueError invalid_school_msg).
Proof.
  intros Hno. unfold resolve_line.
  destruct (get_school (to_school_input line)) as [i|e] eqn:He; [by destruct (Hno i)|].
  by destruct (get_school_in_Err _ _ _ _ He) as [-> _].
Qed.

Lemma prompt_loop_skip pre rest :
  Forall (λ l, ∀ i, get_school (to_school_input l) ≠ Ok i) pre →
  prompt_loop (pre ++ rest) =
    (replicate (length pre) invalid_school_msg ++ (prompt_loop rest).1, (prompt_loop rest).2).
Proof.
  induction 1 as [|l pre Hl _ IH]; simpl; [by destruct (prompt_loop rest)|].
  rewrite resolve_line_Err by done. rewrite IH. reflexivity.
Qed.

(** ** Theorems on [main] *)

(** C20: the prompt strips whitespace around a code but not around a
    name: a code surrounded by spaces or tabs resolves to its school,
    while a name preceded by one space is rejected; the spec says no
    normalisation is done. *)
Theorem prompt_whitespace (k : nat) (z : Z) (pre post : list ascii) :
  school_codes !! k = Some z → all_space pre → all_space post →
  get_school (to_school_input (String.string_of_list_ascii
      (pre ++ String.list_ascii_of_string (py_str_of_Z z) ++ post))) = Ok (Z.of_nat k) ∧
  Forall (λ s, get_school (to_school_input (String.String " " s)) =
               Err (ValueError invalid_school_msg)) school_names.
Proof.
  intros Hk Hpre Hpost. split.
  - unfold to_school_input. rewrite py_int_of_str_padded by done.
    apply get_school_in_code; [apply school_codes_NoDup | exact Hk].
  - repeat (constructor; [vm_compute; reflexivity|]). constructor.
Qed.

Lemma prompt_whitespace_witness :
  get_school (to_school_input (String.string_of_list_ascii
      (["009"%char; " "%char] ++ String.list_ascii_of_string (py_str_of_Z 9865) ++ [" "%char])))
    = Ok 19 ∧
  get_school (to_school_input " Lester B. Pearson High School") =
    Err (ValueError invalid_school_msg).
Proof.
  assert (Hall : all_space ["009"%char; " "%char]) by (repeat constructor).
  assert (Hpost : all_space [" "%char]) by (repeat constructor).
  destruct (prompt_whitespace 19 9865 _ _ eq_refl Hall Hpost) as [H1 H2].
  split; [exact H1|].
  rewrite Forall_forall in H2. apply (H2 "Lester B. Pearson High School").
  apply (bool_decide_unpack _). vm_compute. reflexivity.
Defined.

(** C21: if some line resolves, the loop stops at the first such line:
    it prints the [ValueError] message once for each earlier line and
    returns the index, name and code of that school. *)
Theorem prompt_loop_first_valid (pre : list string) (line : string) (post : list string) (i : Z) :
  Forall (λ l, ∀ j, get_school (to_school_input l) ≠ Ok j) pre →
  get_school (to_school_input line) = Ok i →
  ∃ k name code, i = Z.of_nat k ∧ school_names !! k = Some name ∧ school_codes !! k = Some code ∧
    prompt_loop (pre ++ line :: post) =
      (replicate (length pre) invalid_school_msg, Ok (i, to_school_input line, name, code)).
Proof.
  intros Hpre Hi. destruct (resolve_line_Ok line i Hi) as (k & name & code & Hk & Hn & Hc & Hr).
  exists k, name, code. split; [done|]. split; [done|]. split; [done|].
  rewrite prompt_loop_skip by done. simpl. rewrite Hr. simpl. by rewrite app_nil_r.
Qed.

Lemma prompt_loop_first_valid_witness :
  prompt_loop ["Centennial"; "12"; "  1679"; "Bowness High School"] =
    (replicate 2 invalid_school_msg, Ok (1, PyInt 1679, "Robert Thirsk School", 1679)).
Proof.
  change ["Centennial"; "12"; "  1679"; "Bowness High School"]
    with (["Centennial"; "12"] ++ "  1679" :: ["Bowness High School"]).
  destruct (prompt_loop_first_valid ["Centennial"; "12"] "  1679" ["Bowness High School"] 1)
    as (k & name & code & Hk & Hn & Hc & ->).
  - repeat constructor; intros j; vm_compute; discriminate.
  - vm_compute. reflexivity.
  - replace k with 1%nat in * by lia. vm_compute in Hn, Hc.
    injection Hn as <-. injection Hc as <-. reflexivity.
Defined.

(** C22: when no line resolves, the loop prints the message for every
    line and ends with the [EOFError] of [input()] at the end of input. *)
Theorem prompt_loop_eof (lines : list string) :
  Forall (λ l, ∀ j, get_school (to_school_input l) ≠ Ok j) lines →
  prompt_loop lines = (replicate (length lines) invalid_school_msg, Err EOFError).
Proof.
  intros H. pose proof (prompt_loop_skip lines [] H) as Hs.
  rewrite app_nil_r in Hs. rewrite Hs. simpl. by rewrite app_nil_r.
Qed.

Lemma prompt_loop_eof_witness :
  prompt_loop ["x"; "0"] = (replicate 2 invalid_school_msg, Err EOFError).
Proof.
  apply prompt_loop_eof. repeat constructor; intros j; vm_compute; discriminate.
Defined.

(** The loop left with a resolved line: it is the first line that
    resolves, and every earlier line printed the message once. *)
Lemma prompt_loop_Ok_inv lines out idx inp name code :
  prompt_loop lines = (out, Ok (idx, inp, name, code)) →
  ∃ pre line post, lines = pre ++ line :: post ∧
    Forall (λ l, ∀ j, get_school (to_school_input l) ≠ Ok j) pre ∧
    get_school (to_school_input line) = Ok idx ∧ inp = to_school_input line ∧
    out = replicate (length pre) invalid_school_msg ∧
    py_getitem school_names idx = Ok name ∧ py_getitem school_codes idx = Ok code.
Proof.
  revert out. induction lines as [|l ls IH]; intros out Hloop; simpl in Hloop; [by injection Hloop|].
  destruct (resolve_line l) as [r|e] eqn:Hr.
  - simplify_eq. unfold resolve_line in Hr. inv_result. simplify_eq.
    exists [], l, ls. split; [done|]. split; [constructor|]. naive_solver.
  - destruct e as [msg| | |]; try (injection Hloop; discriminate).
    destruct (prompt_loop ls) as [out' res'] eqn:Hls. injection Hloop as <- ->.
    destruct (IH out' eq_refl) as (pre & line & post & -> & Hpre & Hline & Hinp & Hout & Hn & Hc).
    assert (Hl : ∀ j, get_school (to_school_input l) ≠ Ok j).
    { intros j Hj. destruct (resolve_line_Ok l j Hj) as (? & ? & ? & _ & _ & _ & Hok).
      congruence. }
    assert (msg = invalid_school_msg) as ->.
    { rewrite resolve_line_Err in Hr by done. congruence. }
    exists (l :: pre), line, post. split; [done|]. split; [by constructor|].
    split; [done|]. split; [done|]. split; [by rewrite Hout|]. done.
Qed.

(** What a report of [main] is made of, on any array. *)
Lemma main_Ok_inv arr lines out rep :
  main arr lines = (out, Ok rep) →
  ∃ pre line post k,
    lines = pre ++ line :: post ∧ out = replicate (length pre) invalid_school_msg ∧
    Forall (λ l, ∀ j, get_school (to_school_input l) ≠ Ok j) pre ∧
    get_school (to_school_input line) = Ok (Z.of_nat k) ∧
    school_names !! k = Some (rep_name rep) ∧ school_codes !! k = Some (rep_code rep) ∧
    calculate_school_stats arr (Z.of_nat k) = Ok (rep_stats rep) ∧
    median_enrollment_over_500 (to_school_input line) arr = Ok (rep_median rep) ∧
    calculate_general_statistics arr = Ok (rep_general rep) ∧
    rep_shape rep = np_shape arr ∧ rep_ndim rep = 3%nat.
Proof.
  unfold main. destruct (prompt_loop lines) as [out' res] eqn:Hloop.
  intros [= <- Hres]. inv_result. subst res. destruct a as [[[idx inp] name] code].
  inv_result. subst rep. simpl.
  destruct (prompt_loop_Ok_inv _ _ _ _ _ _ Hloop)
    as (pre & line & post & -> & Hpre & Hline & -> & -> & Hn & Hc).
  destruct (get_school_in_sound _ _ _ _ Hline) as (k & -> & _).
  destruct (py_getitem_Ok _ _ _ Hn) as (kn & Hkn & Heqn).
  destruct (py_getitem_Ok _ _ _ Hc) as (kc & Hkc & Heqc).
  destruct (Z.ltb_spec (Z.of_nat k) 0); [lia|].
  assert (kn = k) as -> by lia. assert (kc = k) as -> by lia.
  exists pre, line, post, k. naive_solver.
Qed.

(** C23: on a well-shaped array, a report printed by [main] is about the
    school resolved from the first accepted line: its name and code are
    that school's, its statistics meet the specification of
    [calculate_school_stats] for that school's slice, and its median is
    the one [median_enrollment_over_500] computes for the same input. *)
Theorem main_report arr lines out rep :
  has_shape num_schools num_grades num_years arr →
  main arr lines = (out, Ok rep) →
  ∃ pre line post k m,
    lines = pre ++ line :: post ∧ out = replicate (length pre) invalid_school_msg ∧
    get_school (to_school_input line) = Ok (Z.of_nat k) ∧ arr !! k = Some m ∧
    school_names !! k = Some (rep_name rep) ∧ school_codes !! k = Some (rep_code rep) ∧
    school_stats_spec m (rep_stats rep) ∧
    median_enrollment_over_500 (to_school_input line) arr = Ok (rep_median rep).
Proof.
  intros Hsh Hmain.
  destruct (main_Ok_inv _ _ _ _ Hmain)
    as (pre & line & post & k & -> & -> & _ & Hline & Hn & Hc & Hst & Hmed & _).
  assert (Hk : (k < length arr)%nat).
  { destruct Hsh as [-> _]. apply lookup_lt_Some in Hn. exact Hn. }
  destruct (lookup_lt_is_Some_2 _ _ Hk) as [m Hm].
  exists pre, line, post, k, m. do 6 (split; [done|]).
  split; [|done]. eapply calculate_school_stats_sound; eassumption.
Qed.

Lemma main_report_witness :
  ∃ out rep, main sample_array ["Centennial"; " 1679 "] = (out, Ok rep) ∧
  ∃ pre line post k m,
    ["Centennial"; " 1679 "] = pre ++ line :: post ∧ out = replicate (length pre) invalid_school_msg ∧
    get_school (to_school_input line) = Ok (Z.of_nat k) ∧ sample_array !! k = Some m ∧
    school_names !! k = Some (rep_name rep) ∧ school_codes !! k = Some (rep_code rep) ∧
    school_stats_spec m (rep_stats rep) ∧
    median_enrollment_over_500 (to_school_input line) sample_array = Ok (rep_median rep).
Proof.
  assert (Hsh : has_shape num_schools num_grades num_years sample_array)
    by (apply (bool_decide_unpack _); vm_compute; reflexivity).
  destruct (main sample_array ["Centennial"; " 1679 "]) as [out res] eqn:E.
  assert (Hres : ∃ rep, res = Ok rep).
  { vm_compute in E. injection E as _ <-. eexists; reflexivity. }
  destruct Hres as [rep ->]. exists out, rep. split; [reflexivity|].
  exact (main_report sample_array ["Centennial"; " 1679 "] out rep Hsh E).
Defined.
