(* ===== verification/PromptLoop.v ===== *)
(** * The prompt loop of [main] as a transition system

    Lines 189-207 of [src/school_data.py] are a [while True] loop whose
    state is the input still to be read and the text printed so far.  This
    file gives that loop a small-step semantics: [LoopState] is the state
    between two iterations, [loop_step] is one iteration of the body (read
    a line, try [int()], call [get_school] and index the two lists, then
    [break], [print(e)] and go on, or let an exception out), and
    [loop_step_fn] is the same step as an executable function.

    The theorem of this file is an invariant of every state the loop
    reaches from its start, proved by induction on the run: every message
    it has printed is the [ValueError] message of [get_school], one per
    line consumed, and every consumed line is one [get_school] rejects.
    [prompt_loop_rtc] shows that the result of the big-step [prompt_loop]
    of [Main] is reached by a run. *)

From stdpp Require Import relations.
From S2P Require Import Prelude Directory Main.

Local Open Scope Z_scope.

(** ** States and steps *)

Abbreviation resolved := (Z * SchoolInput * string * Z)%type (only parsing).

Inductive LoopState : Type :=
| Prompting (lines : list string) (printed : list string)
| Finished (printed : list string) (outcome : result resolved).

Definition printed_of (s : LoopState) : list string :=
  match s with Prompting _ p | Finished p _ => p end.

(** One iteration of the body of [while True] (lines 190-207). *)
Inductive loop_step : LoopState → LoopState → Prop :=
| step_eof printed :
    loop_step (Prompting [] printed) (Finished printed (Err EOFError))
| step_break line rest printed r :
    resolve_line line = Ok r →
    loop_step (Prompting (line :: rest) printed) (Finished printed (Ok r))
| step_print line rest printed msg :
    resolve_line line = Err (ValueError msg) →
    loop_step (Prompting (line :: rest) printed) (Prompting rest (printed ++ [msg]))
| step_raise line rest printed e :
    resolve_line line = Err e → (∀ msg, e ≠ ValueError msg) →
    loop_step (Prompting (line :: rest) printed) (Finished printed (Err e)).

(** The same iteration, computed. *)
Definition loop_step_fn (s : LoopState) : option LoopState :=
  match s with
  | Finished _ _ => None
  | Prompting [] printed => Some (Finished printed (Err EOFError))
  | Prompting (line :: rest) printed =>
      match resolve_line line with
      | Ok r => Some (Finished printed (Ok r))
      | Err (ValueError msg) => Some (Prompting rest (printed ++ [msg]))
      | Err e => Some (Finished printed (Err e))
      end
  end.

#[export] Hint Constructors loop_step : school.

(** ** The step relation *)

Lemma loop_step_fn_spec s s' : loop_step s s' ↔ loop_step_fn s = Some s'.
Proof.
  split.
  - destruct 1 as [|? ? ? ? H|? ? ? ? H|? ? ? e H Hne]; simpl; rewrite ?H; try done.
    destruct e; try done. by destruct (Hne msg).
  - destruct s as [[|line rest] printed|]; simpl; [by intros [= <-]; constructor| |done].
    destruct (resolve_line line) as [r|[msg| | |]] eqn:Hr; intros [= <-];
      eauto with school; apply step_raise; congruence.
Qed.

Lemma prompt_loop_rtc lines printed :
  rtc loop_step (Prompting lines printed)
    (Finished (printed ++ (prompt_loop lines).1) (prompt_loop lines).2).
Proof.
  revert printed. induction lines as [|line rest IH]; intros printed; simpl.
  - apply rtc_once. rewrite app_nil_r. constructor.
  - destruct (resolve_line line) as [r|[msg| | |]] eqn:Hr;
      try (apply rtc_once; rewrite app_nil_r; apply step_raise; congruence).
    + apply rtc_once. rewrite app_nil_r. by constructor.
    + destruct (prompt_loop rest) as [out res] eqn:Hrest. simpl.
      eapply rtc_l; [by apply step_print|]. specialize (IH (printed ++ [msg])).
      rewrite <- (assoc_L (++)) in IH. exact IH.
Qed.

(** A line that is rejected is rejected by [get_school] itself, with the
    message of line 65 (the two list lookups cannot fail on a resolved
    index). *)
Lemma resolve_line_Err_inv line e :
  resolve_line line = Err e →
  e = ValueError invalid_school_msg ∧ ∀ i, get_school (to_school_input line) ≠ Ok i.
Proof.
  intros Hr. destruct (get_school (to_school_input line)) as [i|e'] eqn:Hg.
  - destruct (resolve_line_Ok _ _ Hg) as (? & ? & ? & _ & _ & _ & Hok). congruence.
  - unfold resolve_line in Hr. rewrite Hg in Hr. simpl in Hr. injection Hr as ->.
    split; [apply (get_school_in_Err _ _ _ _ Hg)|congruence].
Qed.

(** ** Theorems *)

(** C24: along every run of the loop from the start, each printed line is
    the message "Please enter a valid school name or code.", one per line
    consumed, and every consumed line was one [get_school] rejects. *)
Theorem loop_printed_invariant lines s :
  rtc loop_step (Prompting lines []) s →
  Forall (λ msg, msg = invalid_school_msg) (printed_of s) ∧
  match s with
  | Prompting rest p => ∃ pre, lines = pre ++ rest ∧ length pre = length p ∧
      Forall (λ l, ∀ j, get_school (to_school_input l) ≠ Ok j) pre
  | Finished p _ => (length p <= length lines)%nat
  end.
Proof.
  revert s. apply rtc_ind_r.
  { split; [constructor|]. by exists []. }
  intros s s' Hrtc Hs IH. destruct IH as [Hall Hshape]. destruct Hs as [p|line rest p r Hr|line rest p msg Hr|line rest p e Hr _];
    simpl in *; destruct Hshape as (pre & -> & Hlen & Hpre).
  - split; [done|]. rewrite length_app. lia.
  - split; [done|]. rewrite length_app. simpl. lia.
  - destruct (resolve_line_Err_inv _ _ Hr) as [[= ->] Hno].
    split; [apply Forall_app; by split; [|constructor]|].
    exists (pre ++ [line]). rewrite <- (assoc_L (++)). split; [done|].
    rewrite !length_app, Hlen. split; [done|]. apply Forall_app. by split; [|constructor].
  - split; [done|]. rewrite length_app. simpl. lia.
Qed.

Lemma loop_printed_invariant_witness :
  Forall (λ msg, msg = invalid_school_msg) [invalid_school_msg; invalid_school_msg] ∧
  (2 <= length ["Centennial"; "12"; "  1679"])%nat.
Proof.
  pose proof (prompt_loop_rtc ["Centennial"; "12"; "  1679"] []) as H. vm_compute in H.
  exact (loop_printed_invariant _ _ H).
Defined.
