(* ===== verification/Pipeline.v ===== *)
(** * The whole program: loading at import time, then [main]

    Running [src/school_data.py] as a script first executes its module
    level (lines 17-42: the yearly blocks are loaded into
    [enrollment_data]), then [main()] (lines 239-240).  A load error ends
    the program before anything is read.  [run_program] is that
    composition; its theorems follow a report back to the yearly blocks it
    was computed from. *)

From S2P Require Import Prelude Numpy Directory Loader SchoolStats Main.

Local Open Scope Z_scope.

(** ** The program *)

Definition run_program (years_data : list (list cell)) (lines : list string)
    : list string * result Report :=
  match load_enrollment years_data with
  | Err e => ([], Err e)
  | Ok enrollment_data => main enrollment_data lines
  end.

(** The three cells of school [s] in a flat yearly block, in grade order. *)
Definition school_cells (s : nat) (block : list cell) : list cell :=
  take num_grades (drop (s * num_grades) block).

(** ** Lemmas *)

Lemma run_program_Ok years_data lines out rep :
  run_program years_data lines = (out, Ok rep) →
  ∃ arr, load_enrollment years_data = Ok arr ∧ main arr lines = (out, Ok rep).
Proof.
  unfold run_program. destruct (load_enrollment years_data) as [arr|e]; [|done].
  intros H. by exists arr.
Qed.

(** The column [y] of a school's slice read back from the blocks. *)
Lemma column_from_blocks years_data arr k m y b :
  load_enrollment years_data = Ok arr → arr !! k = Some m →
  (k < num_schools)%nat → years_data !! y = Some b →
  column m y = school_cells k b.
Proof.
  intros Hload Hm Hk Hb.
  destruct (load_from_spec _ 0 _ _ (np_zeros_shape _ _ _) ltac:(lia) Hload)
    as (Hsh & Hlen & Hcell).
  assert (Hy : (y < length years_data)%nat) by (by apply lookup_lt_Some in Hb).
  assert (Hg : ∀ g, (g < num_grades)%nat → cell_at arr k g y = b !! (k * num_grades + g)%nat).
  { intros g Hg. rewrite Hcell by lia. rewrite decide_True by lia.
    by rewrite Nat.sub_0_r, Hb. }
  apply has_shape_lookup in Hsh as [_ Hsh]. destruct (Hsh _ _ Hm) as [Hm3 Hrows].
  destruct m as [|r0 [|r1 [|r2 [|]]]]; unfold num_grades in Hm3; simpl in Hm3; try lia.
  assert (Hr : ∀ g r, [r0; r1; r2] !! g = Some r → ∃ c, r !! y = Some c).
  { intros g r Hgr. apply lookup_lt_is_Some_2. rewrite (Hrows g r Hgr). lia. }
  destruct (Hr 0%nat r0 eq_refl) as [c0 H0], (Hr 1%nat r1 eq_refl) as [c1 H1],
    (Hr 2%nat r2 eq_refl) as [c2 H2].
  assert (Hc : ∀ g c, (g < 3)%nat → cell_at arr k g y = Some c → b !! (k * 3 + g)%nat = Some c).
  { intros g c Hg3 Hc. rewrite <- Hc. symmetry. by apply Hg. }
  pose proof (Hc 0%nat c0 ltac:(lia) ltac:(unfold cell_at; rewrite Hm; done)) as B0.
  pose proof (Hc 1%nat c1 ltac:(lia) ltac:(unfold cell_at; rewrite Hm; done)) as B1.
  pose proof (Hc 2%nat c2 ltac:(lia) ltac:(unfold cell_at; rewrite Hm; done)) as B2.
  unfold column, school_cells, num_grades. simpl. rewrite H0, H1, H2.
  rewrite Nat.add_0_r in B0.
  replace (k * 3 + 1)%nat with (S (k * 3)) in B1 by lia.
  replace (k * 3 + 2)%nat with (S (S (k * 3))) in B2 by lia.
  by rewrite (drop_S _ _ _ B0), (drop_S _ _ _ B1), (drop_S _ _ _ B2).
Qed.

(** ** Theorems *)

(** C25: the yearly totals the program prints for the school it reports
    on are read from the input blocks: the total for year [y] is the sum
    of the valid cells among the three entries [3*k], [3*k+1], [3*k+2] of
    block [y], where [k] is the index of the reported school. *)
Theorem run_program_yearly years_data lines out rep :
  run_program years_data lines = (out, Ok rep) →
  ∃ k, school_names !! k = Some (rep_name rep) ∧
    ∀ y b label, years_data !! y = Some b → years !! y = Some label →
      yearly_enrollments (rep_stats rep) !! y = Some (label, sumZ (valid (school_cells k b))).
Proof.
  intros H. destruct (run_program_Ok _ _ _ _ H) as (arr & Hload & Hmain).
  destruct (main_Ok_inv _ _ _ _ Hmain) as (? & ? & ? & k & _ & _ & _ & _ & Hn & _ & Hst & _).
  destruct (load_from_spec _ 0 _ _ (np_zeros_shape _ _ _) ltac:(lia) Hload) as (Hsh & _).
  assert (Hk : (k < num_schools)%nat) by (apply lookup_lt_Some in Hn; exact Hn).
  destruct (lookup_lt_is_Some_2 arr k) as [m Hm]; [by destruct Hsh as [-> _]|].
  pose proof (calculate_school_stats_sound _ _ _ _ Hsh Hm Hst) as Hspec.
  exists k. split; [done|]. intros y b label Hb Hlabel.
  assert (Hy : (y < num_years)%nat) by (apply lookup_lt_Some in Hlabel; exact Hlabel).
  rewrite (spec_yearly _ _ Hspec), lookup_zip_with, Hlabel. cbn [mbind option_bind].
  rewrite (list_lookup_fmap (λ i, sumZ (valid (column m i)))), lookup_seq_lt by done. simpl.
  by rewrite (column_from_blocks _ _ _ _ _ _ Hload Hm Hk Hb).
Qed.

Lemma run_program_yearly_witness :
  ∃ out rep, run_program sample_years ["9830"] = (out, Ok rep) ∧
  ∃ k, school_names !! k = Some (rep_name rep) ∧
    ∀ y b label, sample_years !! y = Some b → years !! y = Some label →
      yearly_enrollments (rep_stats rep) !! y = Some (label, sumZ (valid (school_cells k b))).
Proof.
  destruct (run_program sample_years ["9830"]) as [out res] eqn:E.
  assert (Hres : ∃ rep, res = Ok rep).
  { vm_compute in E. injection E as _ <-. eexists; reflexivity. }
  destruct Hres as [rep ->]. exists out, rep. split; [done|].
  exact (run_program_yearly _ _ _ _ E).
Defined.
