(* ===== verification/Console.v ===== *)
(** * What [main] writes to the console

    [main] (lines 173-237 of [src/school_data.py]) and
    [median_enrollment_over_500] (lines 101-105) print as they go: the
    header, one prompt per [input()] and one message per rejected line,
    the school statistics, the threshold median, then the general
    statistics.  An exception raised by one of the later computations
    leaves the program after what was already printed.

    [io] is a writer-and-exception monad: the strings written to standard
    output, in order, and the result or the exception that escaped.
    [print] is Python's [print] with one argument and [print2] with two
    (joined by one space); the [input()] prompt is written without a
    newline.  [console_main] is [main] in this monad, statement by
    statement; [Main.main] keeps only the values.  The theorem here shows
    what is already printed when the general statistics raise. *)

From Stdlib Require Import Ascii.
From Stdlib Require String.
From S2P Require Import Prelude Numpy Directory Loader SchoolStats Median GeneralStats Main.

Local Open Scope Z_scope.

(** ** The writer-and-exception monad *)

Record io (A : Type) : Type := IO { io_writes : list string; io_res : result A }.
Arguments IO {A} _ _.
Arguments io_writes {A} _.
Arguments io_res {A} _.

#[export] Instance io_ret : MRet io := λ A a, IO [] (Ok a).
#[export] Instance io_bind : MBind io := λ A B f m,
  match io_res m with
  | Ok a => let m' := f a in IO (io_writes m ++ io_writes m') (io_res m')
  | Err e => IO (io_writes m) (Err e)
  end.

Definition io_write (ws : list string) : io unit := IO ws (Ok ()).
Definition io_lift {A} (r : result A) : io A := IO [] r.

(** ** Printing *)

Definition newline : string := String.String (ascii_of_nat 10) String.EmptyString.

(** [print(s)]. *)
Definition print (s : string) : string := (s ++ newline)%string.
(** [print(a, b)]. *)
Definition print2 (a b : string) : string := (a ++ " " ++ b ++ newline)%string.

(** [str] of a shape tuple of three. *)
Definition str_shape (sh : nat * nat * nat) : string :=
  let '(a, b, c) := sh in
  ("(" ++ py_str_of_Z (Z.of_nat a) ++ ", " ++ py_str_of_Z (Z.of_nat b) ++ ", "
   ++ py_str_of_Z (Z.of_nat c) ++ ")")%string.

Definition prompt_text : string := "Please enter the highschool name or school code: ".

(** Lines 181-185. *)
Definition header_writes (arr : array3) : list string :=
  [print "ENSF 692 School Enrollment Statistics";
   print2 "Shape of full data array:" (str_shape (np_shape arr));
   print2 "Dimensions of full data array:" (py_str_of_Z 3)].

(** Lines 189-207: [input()] writes its prompt, [print(e)] the message. *)
Fixpoint console_loop (lines : list string) : io (Z * SchoolInput * string * Z) :=
  match lines with
  | [] => IO [prompt_text] (Err EOFError)
  | line :: rest =>
      match resolve_line line with
      | Ok r => IO [prompt_text] (Ok r)
      | Err (ValueError msg) =>
          let m := console_loop rest in IO (prompt_text :: print msg :: io_writes m) (io_res m)
      | Err e => IO [prompt_text] (Err e)
      end
  end.

(** Lines 221-222: one line per item of [yearly_enrollments]. *)
Definition year_line (year : string) (total : Z) : string :=
  print ("Total enrollment for " ++ year ++ ": " ++ py_str_of_Z total)%string.

(** Lines 214-224. *)
Definition school_writes (name : string) (code : Z) (st : SchoolStats) : list string :=
  [print (newline ++ "***Requested School Statistics***" ++ newline)%string;
   print ("School Name: " ++ name ++ ", School Code: " ++ py_str_of_Z code ++ " ")%string;
   print2 "Mean enrollment for Grade 10:" (py_str_of_Z (mean_grade_10 st));
   print2 "Mean enrollment for Grade 11:" (py_str_of_Z (mean_grade_11 st));
   print2 "Mean enrollment for Grade 12:" (py_str_of_Z (mean_grade_12 st));
   print2 "Highest enrollment for a single grade:" (py_str_of_Z (highest_enrollment st));
   print2 "Lowest enrollment for a single grade:" (py_str_of_Z (lowest_enrollment st))] ++
  map (λ '(year, total), year_line year total) (yearly_enrollments st) ++
  [print2 "Total ten year enrolment:" (py_str_of_Z (total_enrollment_10_years st));
   print2 "Mean total enrollment over 10 years:" (py_str_of_Z (mean_total_yearly_enrollment st))].

(** Lines 101-105, inside [median_enrollment_over_500]. *)
Definition median_writes (md : MedianReport) : list string :=
  match md with
  | NoEnrollmentsOver500 => [print "No enrollments over 500."]
  | MedianOver500 v =>
      [print ("For all enrollments over 500, the median value was: " ++ py_str_of_Z v)%string]
  end.

(** Lines 232-237. *)
Definition general_writes (g : GeneralStats) : list string :=
  [print (newline ++ "***General Statistics for All Schools***" ++ newline)%string;
   print2 "Mean enrollment in 2013:" (py_str_of_Z (mean_enrollment_2013 g));
   print2 "Mean enrollment in 2022:" (py_str_of_Z (mean_enrollment_2022 g));
   print2 "Total graduating class of 2022:" (py_str_of_Z (total_enrollment_2022 g));
   print2 "Highest enrollment for a single grade:" (py_str_of_Z (highest_yearly_enrollment g));
   print2 "Lowest enrollment for a single grade:" (py_str_of_Z (lowest_yearly_enrollment g))].

(** [main], statement by statement. *)
Definition console_main (enrollment_data : array3) (lines : list string) : io unit :=
  io_write (header_writes enrollment_data);;
  '(school_index, school_input, school_name, school_code) ← console_loop lines;
  school_stats ← io_lift (calculate_school_stats enrollment_data school_index);
  io_write (school_writes school_name school_code school_stats);;
  median ← io_lift (median_enrollment_over_500 school_input enrollment_data);
  io_write (median_writes median);;
  general_stats ← io_lift (calculate_general_statistics enrollment_data);
  io_write (general_writes general_stats).

(** The writes of the loop: a prompt and a message per rejected line. *)
Definition rejected_writes (msgs : list string) : list string :=
  concat (map (λ msg, [prompt_text; print msg]) msgs).

(** ** Lemmas *)

(** The console loop prints what [prompt_loop] returns, each message
    after its prompt, and ends with the same outcome. *)
Lemma console_loop_prompt_loop lines :
  console_loop lines =
    IO (rejected_writes (prompt_loop lines).1 ++ [prompt_text]) (prompt_loop lines).2.
Proof.
  induction lines as [|line rest IH]; [done|]. simpl.
  destruct (resolve_line line) as [r|[msg| | |]]; try done.
  rewrite IH. destruct (prompt_loop rest) as [out res]. done.
Qed.

(** What a run prints once the loop has resolved a school. *)
Lemma console_main_resolved arr lines out idx inp name code :
  prompt_loop lines = (out, Ok (idx, inp, name, code)) →
  console_main arr lines =
    match calculate_school_stats arr idx with
    | Err e => IO (header_writes arr ++ rejected_writes out ++ [prompt_text]) (Err e)
    | Ok st =>
      match median_enrollment_over_500 inp arr with
      | Err e => IO (header_writes arr ++ rejected_writes out ++ [prompt_text] ++
                     school_writes name code st) (Err e)
      | Ok md =>
        match calculate_general_statistics arr with
        | Err e => IO (header_writes arr ++ rejected_writes out ++ [prompt_text] ++
                       school_writes name code st ++ median_writes md) (Err e)
        | Ok g => IO (header_writes arr ++ rejected_writes out ++ [prompt_text] ++
                      school_writes name code st ++ median_writes md ++ general_writes g) (Ok ())
        end
      end
    end.
Proof.
  intros Hloop. unfold console_main. rewrite console_loop_prompt_loop, Hloop.
  cbn [mbind io_bind io_write io_lift io_res io_writes fst snd].
  destruct (calculate_school_stats arr idx) as [st|e];
    cbn [mbind io_bind io_write io_lift io_res io_writes]; [|by rewrite !app_nil_r].
  destruct (median_enrollment_over_500 inp arr) as [md|e];
    cbn [mbind io_bind io_write io_lift io_res io_writes];
    [|by rewrite ?app_nil_r, <- ?(assoc_L (++))].
  destruct (calculate_general_statistics arr) as [g|e];
    cbn [mbind io_bind io_write io_lift io_res io_writes];
    by rewrite ?app_nil_r, <- ?(assoc_L (++)).
Qed.

(** ** Theorems *)

(** C26: when a 2013 cell is missing, the school report and the median
    line are printed before [calculate_general_statistics] raises the
    [ValueError] of [int(np.floor(nan))] (line 158): the exception ends
    the program after the output of lines 214-225, not before it. *)
Theorem console_main_partial_output arr lines out idx inp name code st md s g :
  has_shape num_schools num_grades num_years arr → cell_at arr s g 0 = Some None →
  prompt_loop lines = (out, Ok (idx, inp, name, code)) →
  calculate_school_stats arr idx = Ok st →
  median_enrollment_over_500 inp arr = Ok md →
  console_main arr lines =
    IO (header_writes arr ++ rejected_writes out ++ [prompt_text] ++
        school_writes name code st ++ median_writes md)
       (Err (ValueError "cannot convert float NaN to integer")).
Proof.
  intros Hsh Hc Hloop Hst Hmd.
  rewrite (console_main_resolved _ _ _ _ _ _ _ Hloop), Hst, Hmd.
  rewrite (calculate_general_statistics_unfold arr Hsh). unfold np_mean.
  by rewrite (mapM_id_None _ (elem_of_year_cells _ _ _ _ _ Hc)).
Qed.

Definition sample_array_nan_2013 : array3 :=
  array_of (load_enrollment (<[0%nat := <[4%nat := None]> (sample_block 0)]> sample_years)).

Lemma console_main_partial_output_witness :
  ∃ st md, calculate_school_stats sample_array_nan_2013 0 = Ok st ∧
    median_enrollment_over_500 (PyInt 1224) sample_array_nan_2013 = Ok md ∧
    console_main sample_array_nan_2013 ["1224"] =
      IO (header_writes sample_array_nan_2013 ++ rejected_writes [] ++ [prompt_text] ++
          school_writes "Centennial High School" 1224 st ++ median_writes md)
         (Err (ValueError "cannot convert float NaN to integer")).
Proof.
  destruct (calculate_school_stats sample_array_nan_2013 0) as [st|e] eqn:Hst;
    [|vm_compute in Hst; discriminate].
  destruct (median_enrollment_over_500 (PyInt 1224) sample_array_nan_2013) as [md|e] eqn:Hmd;
    [|vm_compute in Hmd; discriminate].
  exists st, md. split; [done|]. split; [done|].
  apply (console_main_partial_output sample_array_nan_2013 ["1224"] [] 0 (PyInt 1224)
           "Centennial High School" 1224 st md 1 1);
    [apply (bool_decide_unpack _); vm_compute; reflexivity
    |vm_compute; reflexivity|vm_compute; reflexivity|exact Hst|exact Hmd].
Defined.
