(* ===== verification/Bounds.v ===== *)
(** * Bounds on the statistics

    When every valid cell of the array lies in [[0, M]], each statistic
    of [calculate_school_stats] and [calculate_general_statistics] lies in
    a range that is a small multiple of [M], the number of cells it
    combines: a single cell, a year of three grades, thirty cells of a
    school, sixty cells of a year.

    [within M ys] says that every number of [ys] lies in [[0, M]];
    [array_within M arr] says it of the valid cells of the array. *)

From S2P Require Import Prelude Numpy Directory Loader SchoolStats GeneralStats.

Local Open Scope Z_scope.

(** ** Bounded cells *)

Definition within (M : Z) (ys : list Z) : Prop := Forall (λ x, 0 <= x <= M) ys.

Definition array_within (M : Z) (arr : array3) : Prop := within M (valid (concat (concat arr))).

#[export] Instance array_within_dec M arr : Decision (array_within M arr).
Proof. unfold array_within, within. apply _. Defined.

(** ** Lemmas *)

Section within_lemmas.
Context (M : Z).

Lemma within_incl (l1 l2 : list Z) :
  (∀ x, x ∈ l1 → x ∈ l2) → within M l2 → within M l1.
Proof. unfold within. rewrite !Forall_forall. naive_solver. Qed.

Lemma within_elem (l : list Z) x : within M l → x ∈ l → 0 <= x <= M.
Proof. unfold within. rewrite Forall_forall. naive_solver. Qed.

Lemma within_sum (l : list Z) (n : nat) :
  0 <= M → within M l → (length l <= n)%nat → 0 <= sumZ l <= Z.of_nat n * M.
Proof.
  intros HM Hl Hn. pose proof (sumZ_bounds 0 M l Hl). nia.
Qed.

Lemma within_trunc_mean (ys : list Z) :
  ys ≠ [] → within M ys → 0 <= trunc_mean ys <= M.
Proof.
  intros Hne Hys. unfold trunc_mean. apply quot_between.
  - destruct ys; [done|]. simpl. lia.
  - pose proof (sumZ_bounds 0 M ys Hys). lia.
Qed.

Lemma within_floor_mean (ys : list Z) :
  ys ≠ [] → within M ys → 0 <= sumZ ys / Z.of_nat (length ys) <= M.
Proof.
  intros Hne Hys. pose proof (sumZ_bounds 0 M ys Hys).
  assert (0 < Z.of_nat (length ys)) by (destruct ys; [done|]; simpl; lia).
  split; [apply Z.div_pos; lia|]. apply Z.div_le_upper_bound; lia.
Qed.

End within_lemmas.

Lemma length_valid_le (cs : list cell) : (length (valid cs) <= length cs)%nat.
Proof. induction cs as [|[x|] cs IH]; simpl; lia. Qed.

Lemma length_concat_rows {A} (m : list (list A)) (Y : nat) :
  Forall (λ r, length r = Y) m → length (concat m) = (length m * Y)%nat.
Proof. induction 1 as [|r m Hr _ IH]; [done|]. simpl. rewrite length_app, Hr, IH. lia. Qed.

Lemma school_valid_in arr k m x :
  arr !! k = Some m → x ∈ valid (concat m) → x ∈ valid (concat (concat arr)).
Proof.
  rewrite !valid_elem. intros Hk Hx. apply elem_of_concat_iff in Hx as (row & Hrow & Hx).
  apply elem_of_concat_iff. exists row. split; [|done]. apply elem_of_concat_iff.
  exists m. split; [by apply list_elem_of_lookup_2 in Hk|done].
Qed.

Lemma column_valid_in m i x : x ∈ valid (column m i) → x ∈ valid (concat m).
Proof.
  rewrite !valid_elem. unfold column. intros Hx.
  apply list_elem_of_omap in Hx as (row & Hrow & Hr). apply elem_of_concat_iff.
  exists row. split; [done|]. by apply list_elem_of_lookup_2 in Hr.
Qed.

Lemma row_valid_in m row x : row ∈ m → x ∈ valid row → x ∈ valid (concat m).
Proof.
  rewrite !valid_elem. intros Hrow Hx. apply elem_of_concat_iff. by exists row.
Qed.

(** [calculate_school_stats] reads one school of the array, whatever the
    sign of the index. *)
Lemma calculate_school_stats_at arr i st :
  calculate_school_stats arr i = Ok st →
  ∃ k m, arr !! k = Some m ∧ calculate_school_stats arr (Z.of_nat k) = Ok st.
Proof.
  unfold calculate_school_stats. intros H.
  destruct (py_getitem arr i) as [m|e] eqn:Hi; [|done]. rewrite bind_Ok in H.
  destruct (py_getitem_Ok _ _ _ Hi) as (k & Hk & _).
  destruct (py_getitem_nat arr k) as (m' & Hm' & Hget); [by apply lookup_lt_Some in Hk|].
  rewrite Hk in Hm'. injection Hm' as <-.
  exists k, m. split; [done|]. by rewrite Hget, bind_Ok.
Qed.

Lemma length_column_le m i : (length (column m i) <= length m)%nat.
Proof.
  unfold column. induction m as [|row m IH]; [simpl; lia|].
  unfold omap in *. simpl. case_match; simpl; lia.
Qed.

(** ** Theorems *)

(** C27: when every valid cell lies in [[0, M]], the statistics of one
    school are bounded by the number of cells they add up: the grade
    means and the extrema lie in [[0, M]], each yearly total and the mean
    yearly total in [[0, 3 M]], and the ten-year total in [[0, 30 M]]. *)
Theorem calculate_school_stats_bounds arr i st M :
  has_shape num_schools num_grades num_years arr → 0 <= M → array_within M arr →
  calculate_school_stats arr i = Ok st →
  within M (mean_grades st ++ [highest_enrollment st; lowest_enrollment st]) ∧
  within (3 * M) ((yearly_enrollments st).*2 ++ [mean_total_yearly_enrollment st]) ∧
  0 <= total_enrollment_10_years st <= 30 * M.
Proof.
  intros Hsh HM Harr H.
  destruct (calculate_school_stats_at _ _ _ H) as (k & m & Hk & Hst).
  pose proof (calculate_school_stats_sound _ _ _ _ Hsh Hk Hst) as Hspec.
  assert (Hm : within M (valid (concat m))).
  { eapply within_incl; [|exact Harr]. intros x. apply (school_valid_in arr k m x Hk). }
  destruct (school_slice _ _ _ Hsh Hk) as [Hlen Hrows].
  assert (Htot : 0 <= sumZ (valid (concat m)) <= 30 * M).
  { apply (within_sum M _ 30); [done|done|].
    pose proof (length_valid_le (concat m)). rewrite (length_concat_rows m _ Hrows), Hlen in *.
    exact H0. }
  split; [|split].
  - apply Forall_app. split.
    + apply Forall_forall. intros v Hv. apply list_elem_of_lookup in Hv as [j Hj].
      destruct (Forall2_lookup_r _ _ _ _ _ (spec_means _ _ Hspec) Hj) as (row & Hrow & Hne & ->).
      apply within_trunc_mean; [done|]. eapply within_incl; [|exact Hm].
      intros x. apply row_valid_in. by apply list_elem_of_lookup_2 in Hrow.
    + constructor; [|constructor; [|constructor]].
      * eapply within_elem; [exact Hm|apply (spec_highest _ _ Hspec)].
      * eapply within_elem; [exact Hm|apply (spec_lowest _ _ Hspec)].
  - apply Forall_app. split.
    + rewrite (spec_yearly_values _ _ Hspec). apply Forall_forall. intros v Hv.
      apply list_elem_of_fmap in Hv as (y & -> & _).
      apply (within_sum M _ 3); [done| |].
      * eapply within_incl; [|exact Hm]. apply column_valid_in.
      * pose proof (length_valid_le (column m y)). pose proof (length_column_le m y).
        unfold num_grades in Hlen. simpl in Hlen. lia.
    + constructor; [|constructor]. rewrite (spec_mean_total _ _ Hspec).
      apply quot_between; [done|]. unfold num_years. simpl. lia.
  - rewrite (spec_total _ _ Hspec). exact Htot.
Qed.

Lemma calculate_school_stats_bounds_witness :
  ∃ st, calculate_school_stats sample_array 7 = Ok st ∧
    has_shape num_schools num_grades num_years sample_array ∧ array_within 1000 sample_array ∧
    within 1000 (mean_grades st ++ [highest_enrollment st; lowest_enrollment st]) ∧
    within (3 * 1000) ((yearly_enrollments st).*2 ++ [mean_total_yearly_enrollment st]) ∧
    0 <= total_enrollment_10_years st <= 30 * 1000.
Proof.
  destruct (calculate_school_stats sample_array 7) as [st|e] eqn:Hst;
    [|vm_compute in Hst; discriminate].
  assert (Hsh : has_shape num_schools num_grades num_years sample_array)
    by (apply (bool_decide_unpack _); vm_compute; reflexivity).
  assert (Hw : array_within 1000 sample_array)
    by (apply (bool_decide_unpack _); vm_compute; reflexivity).
  exists st. do 3 (split; [done|]).
  exact (calculate_school_stats_bounds sample_array 7 st 1000 Hsh ltac:(lia) Hw Hst).
Defined.

Lemma length_year_cells_le S G Y arr y :
  has_shape S G Y arr → (length (year_cells arr y) <= S * G)%nat.
Proof.
  intros [<- Hall]. unfold year_cells. induction Hall as [|m arr [Hm _] _ IH]; [simpl; lia|].
  simpl. rewrite length_app. pose proof (length_column_le m y). lia.
Qed.

(** C28: when every valid cell lies in [[0, M]], the two yearly means and
    the global extrema of [calculate_general_statistics] lie in [[0, M]]
    and the 2022 total, a sum over sixty cells, in [[0, 60 M]]. *)
Theorem calculate_general_statistics_bounds arr gs M :
  has_shape num_schools num_grades num_years arr → 0 <= M → array_within M arr →
  calculate_general_statistics arr = Ok gs →
  within M [mean_enrollment_2013 gs; mean_enrollment_2022 gs;
            highest_yearly_enrollment gs; lowest_yearly_enrollment gs] ∧
  0 <= total_enrollment_2022 gs <= 60 * M.
Proof.
  intros Hsh HM Harr H.
  destruct (calculate_general_statistics_Ok_inv _ _ Hsh H)
    as (Hne0 & -> & Hne9 & -> & -> & Hhi & Hlo).
  assert (Hy : ∀ y, within M (valid (year_cells arr y))).
  { intros y. eapply within_incl; [|exact Harr]. apply year_cells_in_all. }
  split.
  - constructor; [by apply within_floor_mean|].
    constructor; [by apply within_floor_mean|].
    constructor; [by eapply within_elem|]. constructor; [by eapply within_elem|constructor].
  - apply (within_sum M _ 60); [done|done|].
    pose proof (length_valid_le (year_cells arr 9)).
    pose proof (length_year_cells_le _ _ _ arr 9 Hsh). unfold num_schools, num_grades in *.
    simpl in *. lia.
Qed.

Lemma calculate_general_statistics_bounds_witness :
  ∃ gs, calculate_general_statistics sample_array = Ok gs ∧
    within 1000 [mean_enrollment_2013 gs; mean_enrollment_2022 gs;
                 highest_yearly_enrollment gs; lowest_yearly_enrollment gs] ∧
    0 <= total_enrollment_2022 gs <= 60 * 1000.
Proof.
  destruct (calculate_general_statistics sample_array) as [gs|e] eqn:Hgs;
    [|vm_compute in Hgs; discriminate].
  assert (Hsh : has_shape num_schools num_grades num_years sample_array)
    by (apply (bool_decide_unpack _); vm_compute; reflexivity).
  assert (Hw : array_within 1000 sample_array)
    by (apply (bool_decide_unpack _); vm_compute; reflexivity).
  exists gs. split; [done|].
  exact (calculate_general_statistics_bounds sample_array gs 1000 Hsh ltac:(lia) Hw Hgs).
Defined.
