(* ===== verification/PromptInput.v ===== *)
(** * Which prompt lines select a school by its code

    Line 194 of [src/school_data.py] converts the typed line with
    [int()] before [get_school] looks it up.  [int()] on a string accepts
    more than the decimal text of the code: surrounding whitespace, a
    [+] sign, leading zeros, and single underscores between digits.  This
    file characterises the texts [int()] turns into a given non-negative
    code ([code_text]) and shows that each of them selects the school
    with that code; a name gets no such normalisation ([Main], C20). *)

From Stdlib Require Import Ascii.
From Stdlib Require String.
From S2P Require Import Prelude Directory Main.

Local Open Scope Z_scope.

(** A text for the code [z]: an optional [+], [zeros] leading zeros, an
    optional underscore after them, then [str(z)]. *)
Definition code_text (sign : bool) (zeros : nat) (sep : bool) (z : Z) : list ascii :=
  (if sign then ["+"%char] else []) ++ replicate zeros "0"%char ++
  (if sep then ["_"%char] else []) ++ String.list_ascii_of_string (py_str_of_Z z).

(** ** Lemmas *)

Lemma parse_digits_zeros n b ds :
  parse_digits 0 b (replicate n "0"%char ++ ds) =
  parse_digits 0 (match n with O => b | S _ => true end) ds.
Proof. revert b. induction n as [|n IH]; intros b; [done|]. simpl. by rewrite IH; destruct n. Qed.

Lemma parse_digits_underscore acc ds :
  parse_digits acc true ("_"%char :: ds) = parse_digits acc false ds.
Proof. reflexivity. Qed.

Lemma school_codes_pos : Forall (λ z, 0 < z) school_codes.
Proof. apply (bool_decide_unpack _). vm_compute. reflexivity. Qed.

Lemma code_text_no_space (sign : bool) (zeros : nat) (sep : bool) (ds : list ascii) :
  Forall is_digit ds →
  no_space ((if sign then ["+"%char] else []) ++ replicate zeros "0"%char ++
            (if sep then ["_"%char] else []) ++ ds).
Proof.
  intros Hds. repeat apply Forall_app_2.
  - destruct sign; repeat constructor.
  - apply Forall_replicate. reflexivity.
  - destruct sep; repeat constructor.
  - by apply digits_no_space.
Qed.

(** [int()] of a code text, once the sign is read. *)
Lemma parse_code_digits (zeros : nat) (sep : bool) (ds : list ascii) (z : Z) :
  (sep = true → zeros ≠ O) → ds ≠ [] → Forall is_digit ds → digits_value 0 ds = z →
  parse_digits 0 false (replicate zeros "0"%char ++ (if sep then ["_"%char] else []) ++ ds) =
  Some z.
Proof.
  intros Hsep Hne Hds <-. rewrite parse_digits_zeros.
  destruct sep.
  - destruct zeros as [|n]; [by destruct Hsep|]. cbn iota. simpl app.
    by rewrite parse_digits_underscore, parse_digits_all.
  - by rewrite parse_digits_all.
Qed.

Lemma py_int_of_code_text (sign : bool) (zeros : nat) (sep : bool) (z : Z) (pre post : list ascii) :
  0 <= z → (sep = true → zeros ≠ O) → all_space pre → all_space post →
  py_int_of_str (String.string_of_list_ascii (pre ++ code_text sign zeros sep z ++ post)) =
  Some z.
Proof.
  intros Hz Hsep Hpre Hpost. destruct (py_str_of_Z_digits z) as (ds & Hstr & Hne & Hall & Hval).
  destruct (Z.ltb_spec z 0); [lia|]. rewrite Z.abs_eq in Hval by lia.
  unfold py_int_of_str, code_text. rewrite Hstr, String.list_ascii_of_string_of_list_ascii.
  rewrite py_strip_padded; [|done|done| |by apply code_text_no_space].
  2: { destruct sign, zeros, sep, ds; done. }
  destruct sign; [by apply parse_code_digits|]. simpl app.
  destruct zeros as [|n].
  - destruct sep; [by destruct Hsep|]. simpl app.
    destruct ds as [|c ds]; [done|].
    destruct (digit_not_sign c) as [-> ->]; [by inversion Hall|].
    by apply (parse_code_digits 0 false).
  - simpl. by apply (parse_code_digits (S n)).
Qed.

(** ** Theorem *)

(** C29: [int()] normalises the text of a code: a line made of
    whitespace, an optional [+], any number of leading zeros, an optional
    underscore after them and the digits of a school's code, then
    whitespace, selects that school ([int(" +00_1679 ")] is [1679]). *)
Theorem code_text_selects_school (k : nat) (z : Z) sign zeros sep (pre post : list ascii) :
  school_codes !! k = Some z → (sep = true → zeros ≠ O) → all_space pre → all_space post →
  get_school (to_school_input (String.string_of_list_ascii (pre ++ code_text sign zeros sep z ++ post)))
    = Ok (Z.of_nat k).
Proof.
  intros Hk Hsep Hpre Hpost.
  assert (Hz : 0 < z) by (eapply Forall_lookup_1; [apply school_codes_pos|exact Hk]).
  unfold to_school_input. rewrite py_int_of_code_text by (done || lia).
  apply get_school_in_code; [apply school_codes_NoDup | exact Hk].
Qed.

Lemma code_text_selects_school_witness :
  get_school (to_school_input " +00_1679 ") = Ok 1.
Proof.
  exact (code_text_selects_school 1 1679 true 2 true [" "%char] [" "%char]
           eq_refl (λ _, ltac:(discriminate)) ltac:(repeat constructor) ltac:(repeat constructor)).
Defined.
